(** * planet_chart.py: rise and set series for a yearly planet chart

    A shallow embedding of [planet_chart.py] (Python 2.7) and the
    properties of its calendar loop, its rise/set normaliser, its series
    builder and its configuration checks.

    Conventions of the embedding.
    - Python [int] is [Z]; [/] between two ints is floor division
      ([Z.div]) and [%] with a positive modulus is [Z.modulo].
    - A finite Python [float] is the rational it denotes ([Q]), and an
      operation between floats is the exact operation followed by
      rounding to binary64, to nearest with ties to even
      ([Binary64.round64]); no operation of the program can overflow on
      finite values.  [math.floor] is [Qfloor] and [int(_)] of a float is
      truncation toward zero.  A setting that may be written as an int
      or as a float is a [Py.number].
    - [None] is the [None] of an [option]; a raised exception is the left
      injection of a sum.
    - The ephemeris library (pyephem) is a black box: its two queries are
      parameters of the development. *)

From Stdlib Require Import ZArith QArith Qround Qpower Bool String Ascii List.
From Stdlib Require Import Lia Lqa Morphisms DecimalString.
Import ListNotations.

(** ** Binary64 arithmetic on finite values *)

Module Binary64.

(** [2^e], for any integer [e]. *)
Definition pow2 (e : Z) : Q := Qpower 2 e.

(** The nearest integer, the even one of two that are equally near. *)
Definition rne (q : Q) : Z :=
  let f := Qfloor q in
  match Qcompare (q - inject_Z f) (1 # 2) with
  | Lt => f
  | Gt => (f + 1)%Z
  | Eq => if Z.even f then f else (f + 1)%Z
  end.

(** For [q > 0], the integer [l] with [2^l <= q < 2^(l+1)]. *)
Definition ilog2 (q : Q) : Z :=
  let l := (Z.log2 (Qnum q) - Z.log2 (Z.pos (Qden q)))%Z in
  if Qle_bool (pow2 l) q then l else (l - 1)%Z.

(** The exponent of the last of the 53 significant bits of [q > 0], not
    below that of the subnormal numbers. *)
Definition fexp (q : Q) : Z := Z.max (ilog2 q - 52) (-1074).

Definition round_pos (q : Q) : Q :=
  inject_Z (rne (q / pow2 (fexp q))) * pow2 (fexp q).

(** The binary64 value nearest to [q], ties to even. *)
Definition round64 (q : Q) : Q :=
  match Qcompare q 0 with
  | Eq => 0
  | Gt => round_pos q
  | Lt => - round_pos (- q)
  end.

(** [a - b], [a * b] and [a / b] between floats. *)
Definition fsub (a b : Q) : Q := round64 (a - b).

Definition fmul (a b : Q) : Q := round64 (a * b).

Definition fdiv (a b : Q) : Q := round64 (a / b).

(** A value that a float can hold. *)
Definition representable (q : Q) : Prop := round64 q == q.

(** The integers from [-200] to [200] are representable. *)
Definition small_ints : list Z := map (fun i => (Z.of_nat i - 200)%Z) (seq 0 401).

Definition small_ints_exact : bool :=
  forallb (fun k => Qeq_bool (round64 (inject_Z k)) (inject_Z k)) small_ints.

(** For [K] from 1 to 12: the power of two below [15 K], the float just
    below [15 K], and the check that [15 K] is not a power of two, is a
    multiple of the spacing of the floats below it, and that the float
    just below it, divided by 15, rounds below [K]. *)
Definition binade15 (K : Z) : Z := ilog2 (inject_Z (15 * K)).

Definition below15 (K : Z) : Q :=
  inject_Z (15 * K * 2 ^ (52 - binade15 K) - 1) * pow2 (binade15 K - 52).

Definition gap_ok (K : Z) : bool :=
  let j := binade15 K in
  (0 <=? j)%Z && (j <=? 52)%Z
  && negb (Qle_bool (inject_Z (15 * K * 2 ^ (52 - j)) * pow2 (j - 52)) (pow2 j))
  && Qle_bool (inject_Z (15 * K * 2 ^ (52 - j)) * pow2 (j - 52)) (pow2 (j + 1))
  && Qeq_bool (inject_Z (15 * K * 2 ^ (52 - j)) * pow2 (j - 52))
              (inject_Z (15 * K))
  && negb (Qle_bool (inject_Z K) (round64 (below15 K / 15))).

End Binary64.

(** ** Python primitives used by the program *)

Module Py.

Inductive exn : Type :=
| IndexError
| ValueError (msg : string)
| EphemError (name : string).

(** A number written in the script: an int ([-80]) or a float
    ([-80.552901]). *)
Inductive number : Type :=
| Int (n : Z)
| Float (q : Q).

(** The value of a number, as comparisons between numbers see it. *)
Definition value (x : number) : Q :=
  match x with
  | Int n => inject_Z n
  | Float q => q
  end.

(** The float an arithmetic operation with a float converts it into. *)
Definition to_float (x : number) : Q :=
  match x with
  | Int n => Binary64.round64 (inject_Z n)
  | Float q => q
  end.

(** The float a decimal literal denotes. *)
Definition literal (q : Q) : Q := Binary64.round64 q.

Definition result (A : Type) : Type := (exn + A)%type.

(** [str(n)] for an int. *)
Definition str (n : Z) : string := NilZero.string_of_int (Z.to_int n).

(** [l[i]]: a negative index counts from the end, an index out of range
    raises [IndexError]. *)
Definition index {A : Type} (l : list A) (i : Z) : result A :=
  let n := Z.of_nat (length l) in
  let j := if (i <? 0)%Z then (i + n)%Z else i in
  if (j <? 0)%Z then inl IndexError
  else match nth_error l (Z.to_nat j) with
       | Some x => inr x
       | None => inl IndexError
       end.

(** [int(x)] for a float: truncation toward zero. *)
Definition int (x : Q) : Z := Z.quot (Qnum x) (Z.pos (Qden x)).

(** [math.floor(x)]. *)
Definition floor (x : Q) : Z := Qfloor x.

(** [math.pi], the double nearest to pi, as an exact fraction. *)
Definition pi : Q := 884279719003555 # 281474976710656.

End Py.

(** A rational written where a number is expected is the float. *)
Coercion Py.Float : Q >-> Py.number.

(** ** The calendar day sequence (lines 122-142) *)

Module Calendar.

Open Scope Z_scope.

Definition days_in_month : list Z :=
  [31; 28; 31; 30; 31; 30; 31; 31; 30; 31; 30; 31].

(** The variables the loop reads and writes.  [time] and [day] are
    recomputed from [count] at the start of every iteration and are
    local to [loop_body]. *)
Record loop_state : Type := mk_state {
  count : Z;
  month : Z;
  current_year : Z;
  time_array : list string;
  cumulative_days : Z
}.

(** Lines 123-128. *)
Definition init (year : Z) : loop_state :=
  {| count := 0; month := 1; current_year := year;
     time_array := []; cumulative_days := 0 |}.

(** Lines 130-135: from the counters at the top of an iteration, the
    updated [cumulative_days] and [month] and the [day] to print.
    [days_in_month[month-1]] is read with the month of the top of the
    iteration in all three places.  [math.floor] makes [day] a float;
    its arithmetic is exact, and written on [Z], as long as [count] and
    [cumulative_days] do not exceed [2^52] in magnitude, which covers
    the counts 0 to 365 of the program (beyond [2^53] line 131 rounds,
    and from [2^1024] it raises [OverflowError]). *)
Definition roll_day (count month cumulative_days : Z)
  : Py.result (Z * Z * Z) :=
  let time := count * 24 * 60 in
  match Py.index days_in_month (month - 1) with
  | inl e => inl e
  | inr len =>
      let day := (time / 60 / 24 - cumulative_days) mod len + 1 in
      if ((time / 60 / 24 - cumulative_days) mod len =? 0) && (1 <? count)
      then inr (cumulative_days + len, month + 1, 1)
      else inr (cumulative_days, month, day)
  end.

(** Lines 138-141: the date key appended for a day. *)
Definition date_key (year month day : Z) : string :=
  if 10 <=? day
  then (Py.str year ++ "/" ++ Py.str month ++ "/" ++ Py.str day)%string
  else (Py.str year ++ "/" ++ Py.str month ++ "/0" ++ Py.str day)%string.

(** What one run of the loop body does to the control flow. *)
Inductive flow : Type :=
| Next (s : loop_state)
| Break (s : loop_state)
| Raise (e : Py.exn).

(** Lines 130-142. *)
Definition loop_body (s : loop_state) : flow :=
  match roll_day (count s) (month s) (cumulative_days s) with
  | inl e => Raise e
  | inr (cumulative_days', month', day) =>
      if 12 <? month'
      then Break {| count := count s; month := month';
                    current_year := current_year s;
                    time_array := time_array s;
                    cumulative_days := cumulative_days' |}
      else Next {| count := count s + 1; month := month';
                   current_year := current_year s;
                   time_array :=
                     time_array s ++ [date_key (current_year s) month' day];
                   cumulative_days := cumulative_days' |}
  end.

(** How the [while] statement was left. *)
Inductive exit : Type :=
| ByBreak            (* the [break] of line 137 *)
| ByCondition.       (* [current_year == year] evaluated to false *)

Inductive outcome : Type :=
| Done (how : exit) (s : loop_state)
| Failed (e : Py.exn)
| OutOfFuel.

(** Line 129: [while current_year == year: body]; [fuel] bounds the
    number of times the condition is evaluated. *)
Fixpoint while_loop (year : Z) (fuel : nat) (s : loop_state) : outcome :=
  match fuel with
  | O => OutOfFuel
  | S fuel' =>
      if current_year s =? year
      then match loop_body s with
           | Next s' => while_loop year fuel' s'
           | Break s' => Done ByBreak s'
           | Raise e => Failed e
           end
      else Done ByCondition s
  end.

(** The calendar the loop is meant to enumerate, written directly from
    the month lengths: every day of every month, in order. *)
Definition days_upto (n : Z) : list Z :=
  map Z.of_nat (seq 1 (Z.to_nat n)).

Fixpoint calendar_from (m : Z) (lens : list Z) : list (Z * Z) :=
  match lens with
  | [] => []
  | len :: rest => map (pair m) (days_upto len) ++ calendar_from (m + 1) rest
  end.

Definition calendar : list (Z * Z) := calendar_from 1 days_in_month.

Definition key_of (year : Z) (md : Z * Z) : string :=
  date_key year (fst md) (snd md).

(** The state at the top of iteration [k], as the calendar predicts it:
    [k] keys appended, month and running total still those of the day
    printed last. *)
Definition entry (k : nat) : Z * Z := nth k calendar (13, 1).
Definition month_at (k : nat) : Z := fst (entry k).
Definition day_at (k : nat) : Z := snd (entry k).
Definition cum_at (k : nat) : Z := Z.of_nat k - (day_at k - 1).

Definition at_top (year : Z) (k : nat) : loop_state :=
  {| count := Z.of_nat k;
     month := month_at (pred k);
     current_year := year;
     time_array := map (key_of year) (firstn k calendar);
     cumulative_days := cum_at (pred k) |}.

(** The state in which the loop is left. *)
Definition at_break (year : Z) : loop_state :=
  {| count := 365; month := 13; current_year := year;
     time_array := map (key_of year) calendar; cumulative_days := 365 |}.

(** [roll_day] at iteration [k] agrees with the calendar, and passes
    month 12 exactly at iteration 365. *)
Definition roll_ok (k : nat) : bool :=
  match roll_day (Z.of_nat k) (month_at (pred k)) (cum_at (pred k)) with
  | inr (c, m, d) =>
      (c =? cum_at k) && (m =? month_at k) && (d =? day_at k)
      && Bool.eqb (12 <? m) (365 <=? k)%nat
  | inl _ => false
  end.

End Calendar.

(** ** The ephemeris library (pyephem), a black box *)

Module Ephem.

Inductive Body : Type :=
| Sun | Mercury | Venus | Mars | Jupiter | Saturn | Uranus | Neptune.

(** [ephem.Observer()] starts at the time of its construction; the
    program then only ever assigns date keys to [obs.date]. *)
Inductive obs_date : Type :=
| Now
| OnDay (key : string).

Record Observer : Type := mk_observer {
  pressure : Z;
  horizon : string;
  lat : Q;
  lon : Q;
  date : obs_date
}.

Inductive event : Type := Rising | Setting.

(** One call of [obs.next_rising(planet)] or [obs.next_setting(planet)],
    with the observer as it was when the call was made. *)
Record query : Type := mk_query {
  q_event : event;
  q_body : Body;
  q_obs : Observer
}.

(** [obs.next_rising(planet).triple()[2]] and the same for
    [next_setting]: the day of the month with its fraction, or the
    exception the library raised. *)
Record library : Type := mk_library {
  next_rising : Observer -> Body -> Py.result Q;
  next_setting : Observer -> Body -> Py.result Q
}.

Definition answer (lib : library) (ev : event) : Observer -> Body -> Py.result Q :=
  match ev with
  | Rising => next_rising lib
  | Setting => next_setting lib
  end.

End Ephem.

(** ** [numpy.ma.masked_outside] *)

Module Numpy.

(** A masked array: the data and, position by position, whether the
    entry is masked. *)
Record masked_array : Type := mk_masked {
  data : list (option Q);
  mask : list bool
}.

(** Python 2 ordering between an array entry and a number: [None]
    compares below every number. *)
Definition lt (x : option Q) (v : Z) : bool :=
  match x with
  | None => true
  | Some q => negb (Qle_bool (inject_Z v) q)
  end.

Definition gt (x : option Q) (v : Z) : bool :=
  match x with
  | None => false
  | Some q => negb (Qle_bool q (inject_Z v))
  end.

(** [masked_outside(x, v1, v2)]: the bounds may come in either order;
    entries below the smaller or above the larger are masked, the data
    are kept. *)
Definition masked_outside (x : list (option Q)) (v1 v2 : Z) : masked_array :=
  let lo := if (v2 <? v1)%Z then v2 else v1 in
  let hi := if (v2 <? v1)%Z then v1 else v2 in
  {| data := x; mask := map (fun e => lt e lo || gt e hi) x |}.

End Numpy.

(** ** The functions of the program (lines 43-87) *)

Module Chart.

Import Ephem Numpy.

(** The program has one observer object, [observing_site], which every
    function receives as [obs] and mutates in place.  The state of a
    computation is that object together with the queries made so far. *)
Record world : Type := mk_world {
  site : Observer;
  asked : list query
}.

Definition M (A : Type) : Type := world -> A * world.

Definition ret {A : Type} (a : A) : M A := fun w => (a, w).

Definition bind {A B : Type} (m : M A) (k : A -> M B) : M B :=
  fun w => let (a, w') := m w in k a w'.

Declare Scope chart_scope.
Delimit Scope chart_scope with chart.
Notation "x <- m ;; k" := (bind m (fun x => k))
  (at level 61, m at next level, right associativity) : chart_scope.
Notation "m ;; k" := (bind m (fun _ => k))
  (at level 61, right associativity) : chart_scope.
Open Scope chart_scope.

Definition with_date (o : Observer) (key : string) : Observer :=
  {| pressure := pressure o; horizon := horizon o;
     lat := lat o; lon := lon o; date := OnDay key |}.

Definition with_horizon (o : Observer) (h : string) : Observer :=
  {| pressure := pressure o; horizon := h;
     lat := lat o; lon := lon o; date := date o |}.

(** [obs.date = key] *)
Definition set_date (key : string) : M unit :=
  fun w => (tt, {| site := with_date (site w) key; asked := asked w |}).

(** [obs.horizon = h] *)
Definition set_horizon (h : string) : M unit :=
  fun w => (tt, {| site := with_horizon (site w) h; asked := asked w |}).

Section WithLibrary.

Variable lib : library.

(** A query to the library: answered from the observer as it is, and
    recorded. *)
Definition ask (ev : event) (planet : Body) : M (Py.result Q) :=
  fun w =>
    (answer lib ev (site w) planet,
     {| site := site w;
        asked := asked w ++ [mk_query ev planet (site w)] |}).

(** Lines 61-72. *)
Definition get_body_rise (planet : Body) (date : string) (noon : Q)
  : M (option Q) :=
  set_date date ;;
  r <- ask Rising planet ;;
  match r with
  | inl _ => ret None
  | inr rising =>
      let rising :=
        Binary64.fmul (Binary64.fsub rising (inject_Z (Py.floor rising))) 24 in
      if negb (Qle_bool rising noon)
      then ret (Some (Binary64.fsub rising 24))
      else ret (Some rising)
  end.

(** Lines 76-87. *)
Definition get_body_set (planet : Body) (date : string) (min_time : Q)
  : M (option Q) :=
  set_date date ;;
  r <- ask Setting planet ;;
  match r with
  | inl _ => ret None
  | inr setting =>
      let setting :=
        Binary64.fmul (Binary64.fsub setting (inject_Z (Py.floor setting))) 24 in
      if negb (Qle_bool setting min_time)
      then ret (Some (Binary64.fsub setting 24))
      else ret (Some setting)
  end.

(** Lines 51-54: the [for] loop, with the two lists it appends to. *)
Fixpoint for_times (body : Body) (times : list string) (noon : Z)
         (body_rise_times body_set_times : list (option Q))
  : M (list (option Q) * list (option Q)) :=
  match times with
  | [] => ret (body_rise_times, body_set_times)
  | time :: rest =>
      set_date time ;;
      r <- get_body_rise body time (inject_Z noon) ;;
      s <- get_body_set body time (inject_Z noon) ;;
      for_times body rest noon (body_rise_times ++ [r]) (body_set_times ++ [s])
  end.

(** Lines 43-57. *)
Definition get_planet_times (body : Body) (times : list string)
           (time_difference : Z) : M (masked_array * masked_array) :=
  let midnight := (- time_difference)%Z in
  let noon := ((- time_difference + 12) mod 24)%Z in
  p <- for_times body times noon [] [] ;;
  ret (masked_outside (fst p) (midnight + 10) (midnight - 10),
       masked_outside (snd p) (midnight + 10) (midnight - 10)).

End WithLibrary.

End Chart.


(** ** The main program (lines 92-156) *)

Module Program.

Import Ephem Numpy Chart.

(** The three user settings of lines 27-29.  The longitude is an int or
    a float, which line 103 tells apart; the latitude only enters
    comparisons and a product with a float, where an int acts as the
    float of its value, and is given by that value. *)
Record config : Type := mk_config {
  latitude : Q;
  longitude : Py.number;
  year : Z
}.

(** Lines 93-94: [-180 == -180.0] holds for the int too. *)
Definition fix_longitude (longitude : Py.number) : Py.number :=
  if Qeq_bool (Py.value longitude) (-180) then Py.Float 180 else longitude.

(** Line 103.  Between two ints [/] is the floor division of Python 2
    and [int] changes nothing; with a float it is the float division,
    which [int] truncates toward zero. *)
Definition time_diff (longitude : Py.number) : Z :=
  match longitude with
  | Py.Int n => (n / 15)%Z
  | Py.Float q => Py.int (Binary64.fdiv q 15)
  end.

(** Lines 106-110. *)
Definition observing_site (latitude : Q) (longitude : Py.number) : Observer :=
  {| pressure := 0;
     horizon := "0";
     lat := Binary64.fdiv (Binary64.fmul latitude Py.pi) 180;
     lon := Binary64.fdiv (Binary64.fmul (Py.to_float longitude) Py.pi) 180;
     date := Now |}.

(** The state of the program once the observing site exists: no query
    has been made yet. *)
Definition start (latitude : Q) (longitude : Py.number) : world :=
  {| site := observing_site latitude longitude; asked := [] |}.

(** Lines 122-142: the date keys, when the loop ends within [fuel]
    evaluations of its condition. *)
Definition build_time_array (fuel : nat) (year : Z)
  : option (Py.result (list string)) :=
  match Calendar.while_loop year fuel (Calendar.init year) with
  | Calendar.Done _ s => Some (inr (Calendar.time_array s))
  | Calendar.Failed e => Some (inl e)
  | Calendar.OutOfFuel => None
  end.

(** The arrays of lines 145-156, a (rise, set) pair each. *)
Record series : Type := mk_series {
  sun_times : masked_array * masked_array;
  mercury_times : masked_array * masked_array;
  venus_times : masked_array * masked_array;
  mars_times : masked_array * masked_array;
  jupiter_times : masked_array * masked_array;
  saturn_times : masked_array * masked_array;
  uranus_times : masked_array * masked_array;
  neptune_times : masked_array * masked_array;
  sun_twilight_times : masked_array * masked_array
}.

(** Lines 145-156. *)
Definition rise_and_set_arrays (lib : library) (time_array : list string)
           (time_diff : Z) : M series :=
  sun <- get_planet_times lib Sun time_array time_diff ;;
  me <- get_planet_times lib Mercury time_array time_diff ;;
  v <- get_planet_times lib Venus time_array time_diff ;;
  m <- get_planet_times lib Mars time_array time_diff ;;
  j <- get_planet_times lib Jupiter time_array time_diff ;;
  s <- get_planet_times lib Saturn time_array time_diff ;;
  u <- get_planet_times lib Uranus time_array time_diff ;;
  n <- get_planet_times lib Neptune time_array time_diff ;;
  set_horizon "-18" ;;
  tw <- get_planet_times lib Sun time_array time_diff ;;
  ret {| sun_times := sun; mercury_times := me; venus_times := v;
         mars_times := m; jupiter_times := j; saturn_times := s;
         uranus_times := u; neptune_times := n;
         sun_twilight_times := tw |}.

(** What the program has computed when it reaches the plotting code. *)
Record computed : Type := mk_computed {
  used_time_diff : Z;
  used_times : list string;
  arrays : series;
  final_site : Observer
}.

(** Lines 92-156.  The result is the exception that ended the program or
    what it computed, together with the ephemeris queries made up to that
    point; [None] when the calendar loop did not end within [fuel].
    Lines 158-217 only draw the arrays and are not modelled. *)
Definition main (lib : library) (fuel : nat) (cfg : config)
  : option (Py.result computed * list query) :=
  let longitude := fix_longitude (longitude cfg) in
  if negb (Qle_bool (-180) (Py.value longitude))
     || negb (Qle_bool (Py.value longitude) 180)
  then Some (inl (Py.ValueError
                    "Longitude must be between -180 and +180 in units of degrees"),
             [])
  else if negb (Qle_bool (-90) (latitude cfg)) || negb (Qle_bool (latitude cfg) 90)
  then Some (inl (Py.ValueError
                    "Latitude must be between -180 and +180 in units of degrees"),
             [])
  else
    let time_diff := time_diff longitude in
    match build_time_array fuel (year cfg) with
    | None => None
    | Some (inl e) => Some (inl e, [])
    | Some (inr time_array) =>
        let (a, w) := rise_and_set_arrays lib time_array time_diff
                        (start (latitude cfg) longitude) in
        Some (inr {| used_time_diff := time_diff;
                     used_times := time_array;
                     arrays := a;
                     final_site := site w |},
              asked w)
    end.

(** ** The contracts of the specification, in its words *)

(** The time normaliser of the specification: the fraction of the day in
    hours, less 24 when that is above the reference. *)
Definition normalize (x ref : Q) : Q :=
  let h := Binary64.fmul (Binary64.fsub x (inject_Z (Qfloor x))) 24 in
  if Qlt_le_dec ref h then Binary64.fsub h 24 else h.

(** The sample of a day for one event: the normalised answer of the
    library for the observer placed on that day, or no event. *)
Definition sample (lib : library) (ev : event) (o : Observer) (body : Body)
           (ref : Q) (day : string) : option Q :=
  match answer lib ev (with_date o day) body with
  | inl _ => None
  | inr x => Some (normalize x ref)
  end.

(** Two samples, and two series, that denote the same values. *)
Definition same_sample (a b : option Q) : Prop :=
  match a, b with
  | None, None => True
  | Some x, Some y => x == y
  | _, _ => False
  end.

Definition same_series (l1 l2 : list (option Q)) : Prop :=
  Forall2 same_sample l1 l2.

(** The references of the specification. *)
Definition ref_rise (offset : Z) : Q := inject_Z ((- offset + 12) mod 24).

Definition ref_set (offset : Z) : Q := inject_Z (- offset).

(** The rise and set queries as the specification describes them: one
    function of the event, placing the observer on the day, asking the
    library and normalising the answer against the reference. *)
Definition get_body_event (lib : library) (ev : event) (planet : Body)
           (date : string) (ref : Q) : M (option Q) :=
  set_date date ;;
  r <- ask lib ev planet ;;
  ret (match r with
       | inl _ => None
       | inr x => Some (normalize x ref)
       end).

(** The queries one pass over the days makes, in order. *)
Definition queries_for (o : Observer) (body : Body) (times : list string)
  : list query :=
  flat_map (fun t => [mk_query Rising body (with_date o t);
                      mk_query Setting body (with_date o t)]) times.

(** A value outside the plotting window of ten hours around local
    midnight. *)
Definition outside_window (midnight : Z) (v : Q) : Prop :=
  v < inject_Z (midnight - 10) \/ inject_Z (midnight + 10) < v.

(** Rise samples referenced to noon and set samples to midnight. *)
Definition split_references (lib : library) (body : Body)
           (times : list string) (offset : Z) (w : world) : Prop :=
  let res := fst (get_planet_times lib body times offset w) in
  same_series (data (fst res))
              (map (sample lib Rising (site w) body (ref_rise offset)) times)
  /\ same_series (data (snd res))
                 (map (sample lib Setting (site w) body (ref_set offset)) times).

(** The offset as the floor of a fifteenth of the longitude. *)
Definition offset_is_floor (longitude : Py.number) : Prop :=
  time_diff longitude = Py.floor (Py.value longitude / 15).

(** The bounds of the normaliser for a reference. *)
Definition within_day_before (ref : Q) (h : option Q) : Prop :=
  match h with
  | Some v => v <= ref /\ ref - 24 < v
  | None => False
  end.

(** The bounds of the normaliser with the lower one included. *)
Definition within_day_upto (ref : Q) (h : option Q) : Prop :=
  match h with
  | Some v => v <= ref /\ ref - 24 <= v
  | None => False
  end.

(** A configuration the checks of lines 97-100 are meant to refuse. *)
Definition out_of_bounds (cfg : config) : Prop :=
  latitude cfg < -90 \/ 90 < latitude cfg
  \/ Py.value (longitude cfg) < -180 \/ 180 < Py.value (longitude cfg).

(** A longitude that a float can hold; every int is one as it stands. *)
Definition float_setting (longitude : Py.number) : Prop :=
  match longitude with
  | Py.Int _ => True
  | Py.Float q => Binary64.representable q
  end.

(** A library that answers every query with the same day fraction, and
    one that never finds an event. *)
Definition constant_library (x : Q) : library :=
  {| next_rising := fun _ _ => inr x; next_setting := fun _ _ => inr x |}.

Definition failing_library : library :=
  {| next_rising := fun _ _ => inl (Py.EphemError "NeverUpError");
     next_setting := fun _ _ => inl (Py.EphemError "NeverUpError") |}.

(** The float written [1.0416666666666667]: one hour into the first day
    of a month, and a little more. *)
Definition just_after_one : Q :=
  Py.literal (10416666666666667 # 10000000000000000).

(** The default settings of lines 27-29. *)
Definition default_config : config :=
  {| latitude := Py.literal (43475085 # 1000000);
     longitude := Py.Float (- Py.literal (80552901 # 1000000));
     year := 2017 |}.

End Program.

(** ** The axes of the chart (lines 189-196) *)

Module Axes.

(** Lines 190-196: the limits of the x axis as (left, right).
    [set_xlim([a, b])] makes [a] the left and [b] the right limit, in
    whichever order they come; [invert_xaxis()] exchanges the two limits
    the axis has.  [longitude] is the variable as lines 93-94 left it. *)
Definition x_limits (longitude : Q) (time_diff : Z) : Z * Z :=
  let lim :=
    if (0 <? - time_diff)%Z
    then (- time_diff - 10, - time_diff + 10)%Z
    else (- time_diff + 10, - time_diff - 10)%Z in
  if negb (Qle_bool longitude (-15)) then (snd lim, fst lim) else lim.

End Axes.

(** ** Notions used to state further properties *)

Module Notions.

Import Ephem Numpy Chart Program.

(** The hours of the day of a raw day value, as lines 68 and 83 compute
    them. *)
Definition hours (x : Q) : Q :=
  Binary64.fmul (Binary64.fsub x (inject_Z (Qfloor x))) 24.

(** The part of a date key after the year. *)
Definition key_suffix (month day : Z) : string :=
  if (10 <=? day)%Z
  then ("/" ++ Py.str month ++ "/" ++ Py.str day)%string
  else ("/" ++ Py.str month ++ "/0" ++ Py.str day)%string.

(** No string occurs twice in the list. *)
Fixpoint distinctb (l : list string) : bool :=
  match l with
  | [] => true
  | x :: rest => negb (existsb (String.eqb x) rest) && distinctb rest
  end.

(** The length of month [m] and the days of the year before it, under
    the fixed month lengths. *)
Definition month_length (m : Z) : Z :=
  nth (Z.to_nat (m - 1)) Calendar.days_in_month 0%Z.

Definition days_before (m : Z) : Z :=
  fold_right Z.add 0%Z (firstn (Z.to_nat (m - 1)) Calendar.days_in_month).

(** A day of a month that the fixed month lengths have. *)
Definition valid_date (m d : Z) : Prop :=
  (1 <= m <= 12)%Z /\ (1 <= d <= month_length m)%Z.

(** The place of a date in the year, counted from 0. *)
Definition day_index (m d : Z) : nat := Z.to_nat (days_before m + d - 1).

(** [day_index] finds every date of the calendar, checked month by month
    and day by day. *)
Definition index_ok (m d : nat) : bool :=
  negb (Z.of_nat d <=? month_length (Z.of_nat m))%Z
  || match nth_error Calendar.calendar (day_index (Z.of_nat m) (Z.of_nat d)) with
     | Some (m', d') => (m' =? Z.of_nat m)%Z && (d' =? Z.of_nat d)%Z
     | None => false
     end.

(** Entry [i] of the calendar is a date the month lengths have, at its
    own place. *)
Definition entry_ok (i : nat) : bool :=
  let m := Calendar.month_at i in
  let d := Calendar.day_at i in
  (1 <=? m)%Z && (m <=? 12)%Z && (1 <=? d)%Z && (d <=? month_length m)%Z
  && (day_index m d =? i)%nat.

(** The day of a key in two decimal digits. *)
Definition two_digits (d : Z) : string :=
  String (ascii_of_nat (48 + Z.to_nat (d / 10)))
         (String (ascii_of_nat (48 + Z.to_nat (d mod 10))) EmptyString).

(** The observer of a query is on the day of one of the keys, with the
    given horizon, and otherwise the given site. *)
Definition asked_from (o : Observer) (h : string) (keys : list string)
           (q : query) : Prop :=
  exists key, In key keys /\ q_obs q = with_date (with_horizon o h) key.

(** A library whose answers fall one day later when the observer is on
    the second of January 2017. *)
Definition next_day_answer (x : Q) (o : Observer) : Py.result Q :=
  match date o with
  | OnDay key => if String.eqb key "2017/1/02" then inr (x + inject_Z 1) else inr x
  | Now => inr x
  end.

Definition two_day_library (x : Q) : library :=
  {| next_rising := fun o _ => next_day_answer x o;
     next_setting := fun o _ => next_day_answer x o |}.

End Notions.

(** * Properties *)

(** ** Rounding to binary64 *)

Module Binary64Facts.

Import Binary64.

(** Powers of two: positive, additive in the exponent, increasing. *)
Lemma pow2_pos (e : Z) : 0 < pow2 e.
Proof. apply Qpower_0_lt. reflexivity. Qed.

Lemma pow2_plus (a b : Z) : pow2 (a + b) == pow2 a * pow2 b.
Proof. apply Qpower_plus. discriminate. Qed.

Lemma pow2_le (a b : Z) : (a <= b)%Z -> pow2 a <= pow2 b.
Proof. intros H. apply Qpower_le_compat_l; [exact H | discriminate]. Qed.

Lemma pow2_lt_inv (a b : Z) : pow2 a < pow2 b -> (a < b)%Z.
Proof. intros H. apply (Qpower_lt_compat_l_inv 2); [exact H | reflexivity]. Qed.

Lemma pow2_Z (e : Z) : (0 <= e)%Z -> pow2 e == inject_Z (2 ^ e).
Proof. intros H. unfold pow2. rewrite Zpower_Qpower by exact H. reflexivity. Qed.

Lemma pow2_succ (e : Z) : pow2 (e + 1) == 2 * pow2 e.
Proof. rewrite pow2_plus. change (pow2 1) with 2. ring. Qed.

Lemma div_pow2 (q : Q) (e : Z) : q / pow2 e * pow2 e == q.
Proof. field. pose proof (pow2_pos e). lra. Qed.

(** Rounding to the nearest integer: exact on integers, within the two
    integers around, the same on equal rationals, and increasing. *)
Lemma rne_Z (k : Z) : rne (inject_Z k) = k.
Proof.
  unfold rne. rewrite Qfloor_Z.
  assert (H : inject_Z k - inject_Z k == 0) by ring.
  rewrite H. reflexivity.
Qed.

Lemma rne_near (q : Q) :
  (rne q = Qfloor q \/ rne q = (Qfloor q + 1)%Z)
  /\ (q - inject_Z (Qfloor q) < 1 # 2 -> rne q = Qfloor q)
  /\ (1 # 2 < q - inject_Z (Qfloor q) -> rne q = (Qfloor q + 1)%Z).
Proof.
  unfold rne.
  destruct (Qcompare_spec (q - inject_Z (Qfloor q)) (1 # 2)) as [H | H | H].
  - split; [destruct (Z.even _); tauto |].
    split; intros H'; rewrite H in H'; exfalso; revert H'; apply Qlt_irrefl.
  - split; [tauto |]. split; [reflexivity |]. intros H'. lra.
  - split; [tauto |]. split; [intros H'; lra | reflexivity].
Qed.

Lemma rne_comp (a b : Q) : a == b -> rne a = rne b.
Proof.
  intros H. unfold rne. rewrite (Qfloor_comp _ _ H).
  assert (E : a - inject_Z (Qfloor b) == b - inject_Z (Qfloor b))
    by (rewrite H; reflexivity).
  rewrite E. reflexivity.
Qed.

Lemma rne_mono (a b : Q) : a <= b -> (rne a <= rne b)%Z.
Proof.
  intros H.
  pose proof (Qfloor_resp_le _ _ H) as Hf.
  destruct (rne_near a) as (Ha & Ha1 & Ha2).
  destruct (rne_near b) as (Hb & Hb1 & Hb2).
  destruct (Z.eq_dec (Qfloor a) (Qfloor b)) as [E | E].
  - unfold rne. rewrite E.
    destruct (Qcompare_spec (a - inject_Z (Qfloor b)) (1 # 2)) as [H1 | H1 | H1];
      destruct (Qcompare_spec (b - inject_Z (Qfloor b)) (1 # 2)) as [H2 | H2 | H2];
      try destruct (Z.even (Qfloor b)); try lia; exfalso; lra.
  - assert (Qfloor a + 1 <= Qfloor b)%Z by lia.
    destruct Ha as [-> | ->]; destruct Hb as [-> | ->]; lia.
Qed.

Lemma rne_ge (k : Z) (q : Q) : inject_Z k <= q -> (k <= rne q)%Z.
Proof. intros H. apply rne_mono in H. rewrite rne_Z in H. exact H. Qed.

Lemma rne_le (k : Z) (q : Q) : q <= inject_Z k -> (rne q <= k)%Z.
Proof. intros H. apply rne_mono in H. rewrite rne_Z in H. exact H. Qed.


(** [ilog2 q] is the integer [l] with [2^l <= q < 2^(l+1)], and the
    only one. *)
Lemma ilog2_spec (q : Q) :
  0 < q -> pow2 (ilog2 q) <= q /\ q < pow2 (ilog2 q + 1).
Proof.
  intros Hq. destruct q as [n d]. unfold ilog2. cbn [Qnum Qden].
  assert (Hn : (0 < n)%Z).
  { unfold Qlt in Hq. cbn in Hq. lia. }
  set (ln := Z.log2 n). set (ld := Z.log2 (Z.pos d)).
  destruct (Z.log2_spec n Hn) as [Hn1 Hn2]. fold ln in Hn1, Hn2.
  destruct (Z.log2_spec (Z.pos d) ltac:(lia)) as [Hd1 Hd2]. fold ld in Hd1, Hd2.
  pose proof (Z.log2_nonneg n) as Hln. fold ln in Hln.
  pose proof (Z.log2_nonneg (Z.pos d)) as Hld. fold ld in Hld.
  assert (Eq : n # d == inject_Z n / inject_Z (Z.pos d)) by apply Qmake_Qdiv.
  assert (Hdq : 0 < inject_Z (Z.pos d)) by (rewrite <- (Zlt_Qlt 0); lia).
  assert (A1 : pow2 ln <= inject_Z n)
    by (rewrite pow2_Z by lia; rewrite <- Zle_Qle; exact Hn1).
  assert (A2 : inject_Z n < pow2 (ln + 1))
    by (rewrite pow2_Z by lia; rewrite <- Zlt_Qlt; replace (ln + 1)%Z with (Z.succ ln) by lia; exact Hn2).
  assert (B1 : pow2 ld <= inject_Z (Z.pos d))
    by (rewrite pow2_Z by lia; rewrite <- Zle_Qle; exact Hd1).
  assert (B2 : inject_Z (Z.pos d) < pow2 (ld + 1))
    by (rewrite pow2_Z by lia; rewrite <- Zlt_Qlt; replace (ld + 1)%Z with (Z.succ ld) by lia; exact Hd2).
  (* q < 2^(l+1) and 2^(l-1) < q *)
  assert (Hup : n # d < pow2 (ln - ld + 1)).
  { rewrite Eq. apply Qlt_shift_div_r; [exact Hdq |].
    replace (ln - ld + 1)%Z with ((ln + 1) + - ld)%Z by lia.
    rewrite pow2_plus.
    assert (P : pow2 (- ld) * pow2 ld == 1).
    { rewrite <- pow2_plus. replace (- ld + ld)%Z with 0%Z by lia. reflexivity. }
    pose proof (pow2_pos (- ld)) as Pp. pose proof (pow2_pos (ln + 1)) as Pq.
    pose proof (pow2_pos ld) as Pl.
    apply Qlt_le_trans with (pow2 (ln + 1)); [exact A2 |].
    setoid_replace (pow2 (ln + 1)) with (pow2 (ln + 1) * pow2 (- ld) * pow2 ld) at 1
      by (rewrite <- Qmult_assoc, P; ring).
    apply Qmult_le_l; [| exact B1].
    apply Qmult_lt_0_compat; assumption. }
  assert (Hlow : pow2 (ln - ld - 1) < n # d).
  { rewrite Eq. apply Qlt_shift_div_l; [exact Hdq |].
    replace (ln - ld - 1)%Z with (ln + - (ld + 1))%Z by lia.
    rewrite pow2_plus.
    assert (P : pow2 (- (ld + 1)) * pow2 (ld + 1) == 1).
    { rewrite <- pow2_plus. replace (- (ld + 1) + (ld + 1))%Z with 0%Z by lia.
      reflexivity. }
    pose proof (pow2_pos (- (ld + 1))) as Pp. pose proof (pow2_pos ln) as Pq.
    apply Qlt_le_trans with (pow2 ln); [| exact A1].
    setoid_replace (pow2 ln) with (pow2 ln * pow2 (- (ld + 1)) * pow2 (ld + 1)) at 2
      by (rewrite <- Qmult_assoc, P; ring).
    apply Qmult_lt_l; [| exact B2].
    apply Qmult_lt_0_compat; assumption. }
  destruct (Qle_bool (pow2 (ln - ld)) (n # d)) eqn:E.
  - apply Qle_bool_iff in E. split; assumption.
  - assert (E' : n # d < pow2 (ln - ld)).
    { apply Qnot_le_lt. intros H. apply Qle_bool_iff in H. congruence. }
    replace (ln - ld - 1 + 1)%Z with (ln - ld)%Z by lia.
    split; [apply Qlt_le_weak; exact Hlow | exact E'].
Qed.

Lemma ilog2_unique (q : Q) (l : Z) :
  pow2 l <= q -> q < pow2 (l + 1) -> ilog2 q = l.
Proof.
  intros H1 H2.
  assert (Hq : 0 < q) by (pose proof (pow2_pos l); lra).
  destruct (ilog2_spec q Hq) as [S1 S2].
  assert (A : (l < ilog2 q + 1)%Z) by (apply pow2_lt_inv; lra).
  assert (B : (ilog2 q < l + 1)%Z) by (apply pow2_lt_inv; lra).
  lia.
Qed.

Lemma ilog2_comp (a b : Q) : 0 < a -> a == b -> ilog2 a = ilog2 b.
Proof.
  intros Ha E. destruct (ilog2_spec a Ha) as [S1 S2].
  symmetry. apply ilog2_unique; rewrite <- E; assumption.
Qed.

Lemma ilog2_mono (a b : Q) : 0 < a -> a <= b -> (ilog2 a <= ilog2 b)%Z.
Proof.
  intros Ha H. destruct (ilog2_spec a Ha) as [A1 A2].
  destruct (ilog2_spec b ltac:(lra)) as [B1 B2].
  assert (L : (ilog2 a < ilog2 b + 1)%Z) by (apply pow2_lt_inv; lra).
  lia.
Qed.

Lemma fexp_comp (a b : Q) : 0 < a -> a == b -> fexp a = fexp b.
Proof. intros Ha E. unfold fexp. rewrite (ilog2_comp a b Ha E). reflexivity. Qed.

Lemma fexp_mono (a b : Q) : 0 < a -> a <= b -> (fexp a <= fexp b)%Z.
Proof. intros Ha H. unfold fexp. pose proof (ilog2_mono a b Ha H). lia. Qed.

Lemma round_pos_comp (a b : Q) : 0 < a -> a == b -> round_pos a == round_pos b.
Proof.
  intros Ha E. unfold round_pos. rewrite (fexp_comp a b Ha E).
  assert (E' : a / pow2 (fexp b) == b / pow2 (fexp b)) by (rewrite E; reflexivity).
  rewrite (rne_comp _ _ E'). reflexivity.
Qed.

Lemma round_pos_nonneg (q : Q) : 0 < q -> 0 <= round_pos q.
Proof.
  intros Hq. unfold round_pos. pose proof (pow2_pos (fexp q)) as Hp.
  apply Qmult_le_0_compat; [| lra].
  rewrite <- (Zle_Qle 0). apply rne_ge. change (inject_Z 0) with 0.
  apply Qle_shift_div_l; [exact Hp | lra].
Qed.

(** Scaled by its last place, a positive value lies between [2^52]
    (unless subnormal) and [2^53]. *)
Lemma scaled_lower (q : Q) :
  0 < q -> (-1074 < fexp q)%Z -> inject_Z (2 ^ 52) <= q / pow2 (fexp q).
Proof.
  intros Hq He. destruct (ilog2_spec q Hq) as [S1 _].
  assert (E : fexp q = (ilog2 q - 52)%Z) by (unfold fexp in *; lia).
  apply Qle_shift_div_l; [apply pow2_pos |].
  rewrite <- pow2_Z by lia. rewrite <- pow2_plus, E.
  replace (52 + (ilog2 q - 52))%Z with (ilog2 q) by lia. exact S1.
Qed.

Lemma scaled_upper (q : Q) :
  0 < q -> q / pow2 (fexp q) <= inject_Z (2 ^ 53).
Proof.
  intros Hq. destruct (ilog2_spec q Hq) as [_ S2].
  apply Qle_shift_div_r; [apply pow2_pos |].
  rewrite <- pow2_Z by lia. rewrite <- pow2_plus.
  apply Qlt_le_weak. apply Qlt_le_trans with (1 := S2).
  apply pow2_le. unfold fexp. lia.
Qed.

(** Rounding is increasing on positive values: within one exponent by
    [rne], across exponents because a binade ends where the next
    begins. *)
Lemma round_pos_mono (a b : Q) :
  0 < a -> a <= b -> round_pos a <= round_pos b.
Proof.
  intros Ha H. assert (Hb : 0 < b) by lra.
  pose proof (fexp_mono a b Ha H) as He.
  destruct (Z.eq_dec (fexp a) (fexp b)) as [E | E].
  - unfold round_pos. rewrite E. pose proof (pow2_pos (fexp b)) as Hp.
    apply Qmult_le_compat_r; [| lra].
    rewrite <- Zle_Qle. apply rne_mono.
    apply Qle_shift_div_l; [exact Hp |]. rewrite div_pow2. exact H.
  - assert (Hlt : (fexp a + 1 <= fexp b)%Z) by lia.
    assert (Hb1 : (-1074 < fexp b)%Z) by (unfold fexp in *; lia).
    apply Qle_trans with (pow2 (fexp a + 53)).
    + unfold round_pos. rewrite (Z.add_comm (fexp a)), pow2_plus.
      pose proof (pow2_pos (fexp a)) as Hp.
      apply Qmult_le_compat_r; [| lra].
      rewrite (pow2_Z 53) by lia. rewrite <- Zle_Qle. apply rne_le.
      apply scaled_upper, Ha.
    + apply Qle_trans with (pow2 (52 + fexp b)); [apply pow2_le; lia |].
      unfold round_pos. rewrite pow2_plus.
      pose proof (pow2_pos (fexp b)) as Hp.
      apply Qmult_le_compat_r; [| lra].
      rewrite (pow2_Z 52) by lia. rewrite <- Zle_Qle. apply rne_ge.
      apply scaled_lower; assumption.
Qed.

(** Rounding does not depend on how the rational is written. *)
#[global] Instance round64_comp : Proper (Qeq ==> Qeq) round64.
Proof.
  intros a b E. unfold round64. rewrite <- E at 1.
  destruct (Qcompare_spec a 0) as [H | H | H]; [reflexivity | |].
  - apply Qopp_comp. apply round_pos_comp; [lra | rewrite E; reflexivity].
  - apply round_pos_comp; [lra | exact E].
Qed.

(** Rounding is increasing, and odd. *)
Lemma round64_mono (a b : Q) : a <= b -> round64 a <= round64 b.
Proof.
  intros H. unfold round64.
  destruct (Qcompare_spec a 0) as [Ha | Ha | Ha];
    destruct (Qcompare_spec b 0) as [Hb | Hb | Hb]; try lra.
  - apply round_pos_nonneg. exact Hb.
  - pose proof (round_pos_nonneg (- a)). lra.
  - pose proof (round_pos_mono (- b) (- a)). lra.
  - pose proof (round_pos_nonneg (- a)). pose proof (round_pos_nonneg b). lra.
  - apply round_pos_mono; assumption.
Qed.

Lemma round64_opp (q : Q) : round64 (- q) == - round64 q.
Proof.
  unfold round64.
  destruct (Qcompare_spec q 0) as [H | H | H];
    destruct (Qcompare_spec (- q) 0) as [H' | H' | H']; try lra.
  - assert (E : - - q == q) by ring.
    rewrite (round_pos_comp (- - q) q) by (lra || exact E). ring.
Qed.

(** Rounding keeps the integers from -200 to 200. *)
Lemma round64_small_int (k : Z) :
  (-200 <= k <= 200)%Z -> round64 (inject_Z k) == inject_Z k.
Proof.
  intros Hk.
  assert (H : small_ints_exact = true) by (vm_compute; reflexivity).
  unfold small_ints_exact in H. rewrite forallb_forall in H.
  apply Qeq_bool_iff. apply H. unfold small_ints. apply in_map_iff.
  exists (Z.to_nat (k + 200)). split; [lia | apply in_seq; lia].
Qed.

Lemma round64_0 : round64 0 == 0.
Proof. reflexivity. Qed.

Lemma round64_nonneg (q : Q) : 0 <= q -> 0 <= round64 q.
Proof. intros H. apply round64_mono in H. rewrite round64_0 in H. exact H. Qed.

Lemma round64_nonpos (q : Q) : q <= 0 -> round64 q <= 0.
Proof. intros H. apply round64_mono in H. rewrite round64_0 in H. exact H. Qed.

(** An integer bounds the rounded value as it bounds the exact one. *)
Lemma round64_ge_int (k : Z) (q : Q) :
  (-200 <= k <= 200)%Z -> inject_Z k <= q -> inject_Z k <= round64 q.
Proof.
  intros Hk H. apply round64_mono in H. rewrite round64_small_int in H; assumption.
Qed.

Lemma round64_le_int (k : Z) (q : Q) :
  (-200 <= k <= 200)%Z -> q <= inject_Z k -> round64 q <= inject_Z k.
Proof.
  intros Hk H. apply round64_mono in H. rewrite round64_small_int in H; assumption.
Qed.

Lemma representable_opp (q : Q) : representable q -> representable (- q).
Proof. unfold representable. intros H. rewrite round64_opp, H. reflexivity. Qed.

Lemma representable_round (q : Q) :
  0 < q -> representable q ->
  q == inject_Z (rne (q / pow2 (fexp q))) * pow2 (fexp q).
Proof.
  intros Hq H. unfold representable, round64 in H.
  destruct (Qcompare_spec q 0) as [E | E | E]; try lra.
  symmetry. exact H.
Qed.

(** Between two neighbours of the grid of a binade there is no float. *)
Lemma gap_below (q : Q) (j M : Z) :
  representable q ->
  (-1022 <= j)%Z ->
  pow2 j < inject_Z M * pow2 (j - 52) ->
  inject_Z M * pow2 (j - 52) <= pow2 (j + 1) ->
  q < inject_Z M * pow2 (j - 52) ->
  q <= inject_Z (M - 1) * pow2 (j - 52).
Proof.
  intros Hr Hj Hlo Hhi Hq.
  pose proof (pow2_pos (j - 52)) as Hu. set (u := pow2 (j - 52)) in *.
  assert (Ej : pow2 j == inject_Z (2 ^ 52) * u).
  { subst u. rewrite <- (pow2_Z 52) by lia. rewrite <- pow2_plus.
    replace (52 + (j - 52))%Z with j by lia. reflexivity. }
  assert (HM : (2 ^ 52 < M)%Z).
  { rewrite Zlt_Qlt. apply Qmult_lt_r with u; [exact Hu |].
    rewrite <- Ej. exact Hlo. }
  assert (Hsub : inject_Z (M - 1) * u == inject_Z M * u - u).
  { unfold Z.sub. rewrite inject_Z_plus, inject_Z_opp.
    change (inject_Z 1) with 1. ring. }
  destruct (Qlt_le_dec q (pow2 j)) as [Hc | Hc].
  - apply Qlt_le_weak. apply Qlt_le_trans with (1 := Hc).
    rewrite Ej. apply Qmult_le_compat_r; [| lra].
    rewrite <- Zle_Qle. lia.
  - assert (Hpos : 0 < q) by (pose proof (pow2_pos j); lra).
    assert (Hl : ilog2 q = j) by (apply ilog2_unique; lra).
    assert (He : fexp q = (j - 52)%Z) by (unfold fexp; rewrite Hl; lia).
    pose proof (representable_round q Hpos Hr) as Eq.
    rewrite He in Eq. fold u in Eq.
    set (m := rne (q / u)) in *.
    assert (Hm : (m < M)%Z).
    { rewrite Zlt_Qlt. apply Qmult_lt_r with u; [exact Hu |].
      rewrite <- Eq. exact Hq. }
    rewrite Eq. apply Qmult_le_compat_r; [| lra].
    rewrite <- Zle_Qle. lia.
Qed.

Lemma gap_ok_all : forallb gap_ok (map Z.of_nat (seq 1 12)) = true.
Proof. vm_compute. reflexivity. Qed.

(** A float below [15 K], divided by 15, rounds below [K]. *)
Lemma quotient_below (K : Z) (q : Q) :
  (1 <= K <= 12)%Z -> representable q -> q < inject_Z (15 * K) ->
  round64 (q / 15) < inject_Z K.
Proof.
  intros HK Hr Hq.
  pose proof gap_ok_all as H. rewrite forallb_forall in H.
  assert (Hin : In K (map Z.of_nat (seq 1 12))).
  { apply in_map_iff. exists (Z.to_nat K). split; [lia | apply in_seq; lia]. }
  apply H in Hin. unfold gap_ok in Hin. cbv zeta in Hin.
  set (j := binade15 K) in *.
  set (M := (15 * K * 2 ^ (52 - j))%Z) in *.
  apply andb_true_iff in Hin. destruct Hin as [Hin Hround].
  apply andb_true_iff in Hin. destruct Hin as [Hin Hgrid].
  apply andb_true_iff in Hin. destruct Hin as [Hin Hhi].
  apply andb_true_iff in Hin. destruct Hin as [Hin Hlo].
  apply andb_true_iff in Hin. destruct Hin as [Hj0 Hj52].
  apply Z.leb_le in Hj0, Hj52.
  apply Qle_bool_iff in Hhi. apply Qeq_bool_iff in Hgrid.
  assert (Hlo' : pow2 j < inject_Z M * pow2 (j - 52)).
  { apply Qnot_le_lt. intros Hc. apply Qle_bool_iff in Hc.
    rewrite Hc in Hlo. discriminate Hlo. }
  assert (Hround' : round64 (below15 K / 15) < inject_Z K).
  { apply Qnot_le_lt. intros Hc. apply Qle_bool_iff in Hc.
    rewrite Hc in Hround. discriminate Hround. }
  assert (Hb : q <= below15 K).
  { unfold below15. fold j. fold M.
    apply gap_below; try assumption; [lia |]. rewrite Hgrid. exact Hq. }
  apply Qle_lt_trans with (2 := Hround').
  apply round64_mono. apply Qmult_le_compat_r; [exact Hb | discriminate].
Qed.

Lemma floor_unique (q : Q) (z : Z) :
  inject_Z z <= q -> q < inject_Z (z + 1) -> Qfloor q = z.
Proof.
  intros H1 H2.
  pose proof (Qfloor_le q) as A. pose proof (Qlt_floor q) as B.
  assert (C : inject_Z z < inject_Z (Qfloor q + 1)) by lra.
  assert (D : inject_Z (Qfloor q) < inject_Z (z + 1)) by lra.
  rewrite <- Zlt_Qlt in C, D. lia.
Qed.

End Binary64Facts.

(** ** The calendar loop *)

Module CalendarFacts.

Import Calendar.
Open Scope Z_scope.

Lemma roll_ok_all : forallb roll_ok (seq 0 366) = true.
Proof. vm_compute. reflexivity. Qed.

Lemma roll_day_at (k : nat) :
  (k <= 365)%nat ->
  roll_day (Z.of_nat k) (month_at (pred k)) (cum_at (pred k))
  = inr (cum_at k, month_at k, day_at k)
  /\ (12 <? month_at k) = (365 <=? k)%nat.
Proof.
  intros Hk.
  pose proof roll_ok_all as H.
  rewrite forallb_forall in H.
  assert (Hin : In k (seq 0 366)) by (apply in_seq; lia).
  apply H in Hin. unfold roll_ok in Hin.
  destruct (roll_day _ _ _) as [e | [[c m] d]]; [discriminate |].
  apply andb_true_iff in Hin; destruct Hin as [Hin Hb].
  apply andb_true_iff in Hin; destruct Hin as [Hin Hd].
  apply andb_true_iff in Hin; destruct Hin as [Hc Hm].
  apply Z.eqb_eq in Hc, Hm, Hd. subst c m d.
  split; [reflexivity |].
  now apply Bool.eqb_prop.
Qed.

Lemma calendar_length : length calendar = 365%nat.
Proof. reflexivity. Qed.

Lemma firstn_snoc {A : Type} (l : list A) (d : A) (k : nat) :
  (k < length l)%nat -> firstn (S k) l = firstn k l ++ [nth k l d].
Proof.
  revert k; induction l as [| a l IH]; intros k Hk; cbn [length] in Hk.
  - lia.
  - destruct k as [| k]; [reflexivity |].
    cbn [firstn nth app]. f_equal. apply IH. lia.
Qed.

(** One iteration takes the predicted state of iteration [k] to that of
    iteration [k + 1], appending the key of calendar entry [k]. *)
Lemma body_at_top (year : Z) (k : nat) :
  (k < 365)%nat -> loop_body (at_top year k) = Next (at_top year (S k)).
Proof.
  intros Hk.
  destruct (roll_day_at k) as [Hr Hm]; [lia |].
  unfold loop_body.
  cbn [at_top count month cumulative_days current_year time_array].
  rewrite Hr, Hm.
  replace (365 <=? k)%nat with false by (symmetry; apply Nat.leb_gt; exact Hk).
  unfold at_top. cbn [pred]. f_equal. f_equal.
  - lia.
  - rewrite (firstn_snoc calendar (13, 1)) by (rewrite calendar_length; exact Hk).
    rewrite map_app. reflexivity.
Qed.

(** Iteration 365 rolls the month to 13 and breaks. *)
Lemma body_at_end (year : Z) :
  loop_body (at_top year 365) = Break (at_break year).
Proof.
  destruct (roll_day_at 365) as [Hr Hm]; [lia |].
  unfold loop_body.
  cbn [at_top count month cumulative_days current_year time_array].
  rewrite Hr, Hm. reflexivity.
Qed.

Lemma while_from_top (year : Z) (j k fuel : nat) :
  (k + j = 365)%nat ->
  while_loop year (S j + fuel) (at_top year k) = Done ByBreak (at_break year).
Proof.
  revert k; induction j as [| j IH]; intros k Hk.
  - replace k with 365%nat by lia.
    cbn [while_loop Nat.add]. cbn [at_top current_year]. rewrite Z.eqb_refl.
    rewrite body_at_end. reflexivity.
  - change (S (S j) + fuel)%nat with (S (S j + fuel)).
    cbn [while_loop]. cbn [at_top current_year]. rewrite Z.eqb_refl.
    rewrite body_at_top by lia. apply IH. lia.
Qed.

Lemma out_of_fuel_from_top (year : Z) (fuel k : nat) :
  (k + fuel <= 365)%nat -> while_loop year fuel (at_top year k) = OutOfFuel.
Proof.
  revert k; induction fuel as [| fuel IH]; intros k Hk; [reflexivity |].
  cbn [while_loop]. cbn [at_top current_year]. rewrite Z.eqb_refl.
  rewrite body_at_top by lia. apply IH. lia.
Qed.

Lemma while_loop_ends (year : Z) (fuel : nat) :
  while_loop year (366 + fuel) (init year) = Done ByBreak (at_break year).
Proof. apply (while_from_top year 365 0 fuel). reflexivity. Qed.

Lemma loop_body_keeps_year (s s' : loop_state) :
  loop_body s = Next s' -> current_year s' = current_year s.
Proof.
  unfold loop_body.
  destruct (roll_day _ _ _) as [e | [[c m] d]]; [discriminate |].
  destruct (12 <? m); [discriminate |].
  intros H. injection H as <-. reflexivity.
Qed.

Lemma build_time_array_366 (year : Z) (fuel : nat) :
  Program.build_time_array (366 + fuel) year
  = Some (inr (map (key_of year) calendar)).
Proof.
  unfold Program.build_time_array. rewrite while_loop_ends. reflexivity.
Qed.

(** C4.  For every year, leap or not, the day/month counter loop builds
    exactly 365 date keys; entry [i] is the key of day [i] of the
    calendar laid out from the fixed month lengths
    31,28,31,30,31,30,31,31,30,31,30,31, and no 29th of February is among
    the days. *)
Theorem calendar_has_365_days (year : Z) :
  Program.build_time_array 366 year = Some (inr (map (key_of year) calendar))
  /\ length (map (key_of year) calendar) = 365%nat
  /\ calendar = calendar_from 1 [31; 28; 31; 30; 31; 30; 31; 31; 30; 31; 30; 31]
  /\ (forall i : nat,
         (i < 365)%nat ->
         nth_error (map (key_of year) calendar) i
         = Some (date_key year (month_at i) (day_at i)))
  /\ ~ In (2, 29) calendar.
Proof.
  split; [exact (build_time_array_366 year 0) |].
  split; [rewrite length_map; exact calendar_length |].
  split; [reflexivity |].
  split.
  - intros i Hi. rewrite nth_error_map.
    rewrite (nth_error_nth' calendar (13, 1)) by (rewrite calendar_length; exact Hi).
    reflexivity.
  - intros Hin.
    assert (Hb : existsb (fun md => (fst md =? 2) && (snd md =? 29)) calendar = true).
    { apply existsb_exists. exists (2, 29). split; [exact Hin | reflexivity]. }
    vm_compute in Hb. discriminate Hb.
Qed.

(** The same keys come out for a leap year: day 59 of 2016 is the first
    of March. *)
Example leap_year_2016 :
  nth_error (map (key_of 2016) calendar) 59 = Some "2016/3/01"%string.
Proof. reflexivity. Qed.

(** C10.  For every year the [while] loop ends, and it ends through the
    [break] of the month passing 12, with 365 keys appended: 366
    evaluations of its condition are enough and fewer are not, while the
    body never changes [current_year], so the condition itself never
    turns false. *)
Theorem calendar_loop_terminates (year : Z) :
  (forall fuel : nat,
      while_loop year (366 + fuel) (init year) = Done ByBreak (at_break year))
  /\ length (time_array (at_break year)) = 365%nat
  /\ (forall fuel : nat,
         (fuel <= 365)%nat -> while_loop year fuel (init year) = OutOfFuel)
  /\ (forall s s' : loop_state,
         loop_body s = Next s' ->
         current_year s' = current_year s
         /\ (current_year s' =? year) = (current_year s =? year)).
Proof.
  split; [intros fuel; apply while_loop_ends |].
  split; [cbn [at_break time_array]; rewrite length_map; exact calendar_length |].
  split.
  - intros fuel Hf. apply (out_of_fuel_from_top year fuel 0). lia.
  - intros s s' H. apply loop_body_keeps_year in H. rewrite H. split; reflexivity.
Qed.

(** C10 at the year 2017: the loop stops after its 366th test, which is
    the first to reach the [break]. *)
Lemma calendar_loop_terminates_witness :
  while_loop 2017 366 (init 2017) = Done ByBreak (at_break 2017)
  /\ while_loop 2017 365 (init 2017) = OutOfFuel
  /\ current_year (at_top 2017 1) = current_year (init 2017).
Proof.
  destruct (calendar_loop_terminates 2017) as (Hend & _ & Hshort & Hyear).
  split; [exact (Hend 0%nat) |].
  split; [apply Hshort; lia |].
  apply (Hyear (init 2017) (at_top 2017 1)). reflexivity.
Defined.

(** C4 at the year 2017: the last key is the 31st of December. *)
Lemma calendar_has_365_days_witness :
  nth_error (map (key_of 2017) calendar) 364 = Some "2017/12/31"%string.
Proof.
  destruct (calendar_has_365_days 2017) as (_ & _ & _ & Hnth & _).
  rewrite (Hnth 364%nat) by lia. reflexivity.
Defined.

End CalendarFacts.

(** ** The rise and set queries and the series builder *)

Module ChartFacts.

Import Ephem Numpy Chart Program.

(** The test [rising > noon] of the code decides the case of the
    specification. *)
Lemma gt_as_normalize (h ref a b : Q) :
  (if negb (Qle_bool h ref) then a else b)
  = (if Qlt_le_dec ref h then a else b).
Proof.
  destruct (Qlt_le_dec ref h) as [Hlt | Hle].
  - destruct (Qle_bool h ref) eqn:E; [| reflexivity].
    apply Qle_bool_iff in E. exfalso. apply (Qlt_not_le _ _ Hlt E).
  - apply Qle_bool_iff in Hle. rewrite Hle. reflexivity.
Qed.

(** [get_body_rise] is the query of the specification for the rising. *)
Lemma get_body_rise_event lib planet d ref w :
  get_body_rise lib planet d ref w = get_body_event lib Rising planet d ref w.
Proof.
  unfold get_body_rise, get_body_event, bind, set_date, ask, ret.
  cbn [answer site asked].
  destruct (next_rising lib _ planet) as [e | x]; [reflexivity |].
  unfold normalize, Py.floor. cbv zeta. rewrite <- gt_as_normalize.
  destruct (negb _); reflexivity.
Qed.

(** [get_body_set] is the query of the specification for the setting. *)
Lemma get_body_set_event lib planet d ref w :
  get_body_set lib planet d ref w = get_body_event lib Setting planet d ref w.
Proof.
  unfold get_body_set, get_body_event, bind, set_date, ask, ret.
  cbn [answer site asked].
  destruct (next_setting lib _ planet) as [e | x]; [reflexivity |].
  unfold normalize, Py.floor. cbv zeta. rewrite <- gt_as_normalize.
  destruct (negb _); reflexivity.
Qed.

(** What a query returns and how it leaves the world: the observer on
    the day asked about, one more query recorded. *)
Lemma get_body_event_run lib ev planet d ref w :
  get_body_event lib ev planet d ref w
  = (sample lib ev (site w) planet ref d,
     {| site := with_date (site w) d;
        asked := asked w ++ [mk_query ev planet (with_date (site w) d)] |}).
Proof. reflexivity. Qed.

(** The [for] loop appends one rise and one set sample per day, in the
    order of the days, and leaves the observer on the last day. *)
Lemma for_times_run lib body times noon :
  forall R S w,
    for_times lib body times noon R S w
    = ((R ++ map (sample lib Rising (site w) body (inject_Z noon)) times,
        S ++ map (sample lib Setting (site w) body (inject_Z noon)) times),
       {| site := fold_left with_date times (site w);
          asked := asked w ++ queries_for (site w) body times |}).
Proof.
  induction times as [| t rest IH]; intros R S w.
  - cbn [for_times map fold_left queries_for flat_map]. unfold ret.
    rewrite !app_nil_r. destruct w; reflexivity.
  - cbn [for_times]. unfold bind at 1. cbn [set_date].
    unfold bind at 1. rewrite get_body_rise_event, get_body_event_run.
    unfold bind at 1. rewrite get_body_set_event, get_body_event_run.
    rewrite IH. cbn [site asked].
    cbn [map fold_left queries_for flat_map].
    rewrite <- !app_assoc. reflexivity.
Qed.

Lemma get_planet_times_run lib body times td w :
  get_planet_times lib body times td w
  = ((masked_outside
        (map (sample lib Rising (site w) body (ref_rise td)) times)
        (- td + 10) (- td - 10),
      masked_outside
        (map (sample lib Setting (site w) body (ref_rise td)) times)
        (- td + 10) (- td - 10)),
     {| site := fold_left with_date times (site w);
        asked := asked w ++ queries_for (site w) body times |}).
Proof.
  unfold get_planet_times, bind. rewrite for_times_run. reflexivity.
Qed.

(** The fraction of a day, in hours and as the code rounds it, lies in
    [0, 24]. *)
Lemma day_fraction_hours (x : Q) :
  0 <= Binary64.fmul (Binary64.fsub x (inject_Z (Qfloor x))) 24
  /\ Binary64.fmul (Binary64.fsub x (inject_Z (Qfloor x))) 24 <= 24.
Proof.
  pose proof (Qfloor_le x) as Hlo.
  pose proof (Qlt_floor x) as Hhi.
  rewrite inject_Z_plus in Hhi.
  change (inject_Z 1) with 1 in Hhi.
  assert (F0 : 0 <= Binary64.fsub x (inject_Z (Qfloor x)))
    by (apply Binary64Facts.round64_nonneg; lra).
  assert (F1 : Binary64.fsub x (inject_Z (Qfloor x)) <= 1).
  { apply (Binary64Facts.round64_le_int 1); [lia |].
    change (inject_Z 1) with 1. lra. }
  set (f := Binary64.fsub x (inject_Z (Qfloor x))) in *.
  split.
  - apply Binary64Facts.round64_nonneg. lra.
  - apply (Binary64Facts.round64_le_int 24); [lia |].
    change (inject_Z 24) with 24. lra.
Qed.

(** For any reference the normalised value lies in [-24, 24], and is at
    most the reference unless it is at most 0. *)
Lemma normalize_range (x ref : Q) :
  -24 <= normalize x ref /\ normalize x ref <= 24
  /\ (normalize x ref <= ref \/ normalize x ref <= 0).
Proof.
  unfold normalize. cbv zeta.
  destruct (day_fraction_hours x) as [Hlo Hhi].
  set (h := Binary64.fmul (Binary64.fsub x (inject_Z (Qfloor x))) 24) in *.
  assert (A : Binary64.fsub h 24 <= 0)
    by (apply Binary64Facts.round64_nonpos; lra).
  assert (B : -24 <= Binary64.fsub h 24).
  { apply (Binary64Facts.round64_ge_int (-24)); [lia |].
    change (inject_Z (-24)) with (-24). lra. }
  destruct (Qlt_le_dec ref h); repeat split; try lra; (left; lra) || (right; lra).
Qed.

(** For a whole reference from 0 to 23 the normalised value lies in the
    day that ends at the reference, both ends included. *)
Lemma normalize_bounds (x : Q) (r : Z) :
  (0 <= r < 24)%Z ->
  normalize x (inject_Z r) <= inject_Z r
  /\ inject_Z r - 24 <= normalize x (inject_Z r).
Proof.
  intros Hr.
  assert (R0 : 0 <= inject_Z r) by (rewrite <- (Zle_Qle 0); lia).
  assert (R24 : inject_Z r < 24)
    by (change 24 with (inject_Z 24); rewrite <- Zlt_Qlt; lia).
  unfold normalize. cbv zeta.
  destruct (day_fraction_hours x) as [Hlo Hhi].
  set (h := Binary64.fmul (Binary64.fsub x (inject_Z (Qfloor x))) 24) in *.
  destruct (Qlt_le_dec (inject_Z r) h) as [Hc | Hc].
  - assert (A : Binary64.fsub h 24 <= 0)
      by (apply Binary64Facts.round64_nonpos; lra).
    assert (B : inject_Z (r - 24) <= Binary64.fsub h 24).
    { apply Binary64Facts.round64_ge_int; [lia |].
      unfold Z.sub. rewrite inject_Z_plus, inject_Z_opp.
      change (inject_Z 24) with 24. lra. }
    unfold Z.sub in B. rewrite inject_Z_plus, inject_Z_opp in B.
    change (inject_Z 24) with 24 in B.
    split; lra.
  - split; lra.
Qed.

(** C9.  [get_body_rise] and [get_body_set] are one function up to the
    event asked of the library: each places the observer on the date,
    asks for the next rising, respectively setting, and normalises the
    answer against the reference it was given (day fraction to hours,
    less 24 when above the reference); and [get_planet_times] gives both
    the same reference, noon. *)
Theorem rise_and_set_share_normaliser lib planet d ref w body times td :
  get_body_rise lib planet d ref w = get_body_event lib Rising planet d ref w
  /\ get_body_set lib planet d ref w = get_body_event lib Setting planet d ref w
  /\ fst (get_body_event lib Rising planet d ref w)
     = sample lib Rising (site w) planet ref d
  /\ fst (get_body_event lib Setting planet d ref w)
     = sample lib Setting (site w) planet ref d
  /\ (let noon := inject_Z ((- td + 12) mod 24) in
      let res := fst (get_planet_times lib body times td w) in
      data (fst res) = map (sample lib Rising (site w) body noon) times
      /\ data (snd res) = map (sample lib Setting (site w) body noon) times).
Proof.
  split; [apply get_body_rise_event |].
  split; [apply get_body_set_event |].
  split; [reflexivity |].
  split; [reflexivity |].
  rewrite get_planet_times_run. split; reflexivity.
Qed.

(** C3, amended.  For a whole reference [ref] with [0 <= ref < 24], as
    is the noon that [get_planet_times] passes, and any raw day value
    [x] the library answers, the rise and the set query return, in
    binary64, a value [h] with [h <= ref] and [ref - 24 <= h]. *)
Theorem normaliser_bounds lib planet d (ref : Z) w x :
  (0 <= ref < 24)%Z ->
  (next_rising lib (with_date (site w) d) planet = inr x ->
   fst (get_body_rise lib planet d (inject_Z ref) w)
   = Some (normalize x (inject_Z ref))
   /\ within_day_upto (inject_Z ref)
        (fst (get_body_rise lib planet d (inject_Z ref) w)))
  /\ (next_setting lib (with_date (site w) d) planet = inr x ->
      fst (get_body_set lib planet d (inject_Z ref) w)
      = Some (normalize x (inject_Z ref))
      /\ within_day_upto (inject_Z ref)
           (fst (get_body_set lib planet d (inject_Z ref) w))).
Proof.
  intros Href.
  rewrite get_body_rise_event, get_body_set_event, !get_body_event_run.
  cbn [fst]. unfold sample. cbn [answer].
  split; intros ->; (split; [reflexivity |]); cbn [within_day_upto];
    apply normalize_bounds; assumption.
Qed.

(** C3 at the reference 1 and the answer 1.0416666666666667, where the
    value is exactly -23. *)
Lemma normaliser_bounds_witness :
  within_day_upto 1
    (fst (get_body_rise (constant_library just_after_one) Sun "2017/1/01" 1
                        (start 0 0))).
Proof.
  refine (proj2 (proj1 (normaliser_bounds (constant_library just_after_one) Sun
                          "2017/1/01" 1 (start 0 0) just_after_one _) _)).
  - lia.
  - reflexivity.
Defined.

(** The lower bound is reached: at the reference 1 the answer
    1.0416666666666667 has 1.0000000000000009 hours, which is above the
    reference, and less 24 that rounds to -23. *)
Example lower_bound_is_reached :
  same_sample
    (fst (get_body_rise (constant_library just_after_one) Sun "2017/1/01" 1
                        (start 0 0)))
    (Some (1 - 24))
  /\ ~ within_day_before 1
        (fst (get_body_rise (constant_library just_after_one) Sun "2017/1/01" 1
                            (start 0 0))).
Proof.
  split.
  - vm_compute. reflexivity.
  - vm_compute. intros [_ H]. discriminate H.
Qed.

(** C3 as stated fails for a negative reference: with the day fraction
    7/8 (21 hours) and the reference -5 the result is -3, above the
    reference. *)
Lemma normaliser_bounds_counterexample :
  ~ within_day_before (-5)
      (fst (get_body_rise (constant_library (7 # 8)) Sun "2017/1/01" (-5)
                          (start 0 0))).
Proof.
  vm_compute. intros [H _]. apply H. reflexivity.
Qed.


(** C1, amended.  For every day of the sequence the rise sample and the
    set sample are both normalised against the one reference
    [(-offset + 12) mod 24], local noon in UTC hours. *)
Theorem both_series_referenced_to_noon lib body times offset w :
  let res := fst (get_planet_times lib body times offset w) in
  data (fst res) = map (sample lib Rising (site w) body (ref_rise offset)) times
  /\ data (snd res) = map (sample lib Setting (site w) body (ref_rise offset)) times.
Proof.
  cbv zeta. rewrite get_planet_times_run. split; reflexivity.
Qed.

(** C1 as stated fails: at offset -5 a setting at half a day (12 hours)
    stays 12, being below noon (17), where a reference of midnight (5)
    would turn it into -12. *)
Lemma set_reference_counterexample :
  ~ split_references (constant_library (1 # 2)) Sun ["2017/1/01"%string] (-5)
      (start 0 0).
Proof.
  unfold split_references. cbv zeta. rewrite get_planet_times_run.
  cbn [fst snd data masked_outside map].
  intros [_ H]. inversion H as [| a b l1 l2 Hab Hrest]; subst.
  vm_compute in Hab. discriminate Hab.
Qed.

(** The bounds [get_planet_times] passes come in the order high, low. *)
Lemma window_bounds (midnight : Z) :
  ((midnight - 10 <? midnight + 10) = true)%Z.
Proof. apply Z.ltb_lt. lia. Qed.

Lemma masked_outside_window (x : list (option Q)) (midnight : Z) :
  masked_outside x (midnight + 10) (midnight - 10)
  = {| data := x;
       mask := map (fun e => lt e (midnight - 10) || gt e (midnight + 10)) x |}.
Proof. unfold masked_outside. rewrite window_bounds. reflexivity. Qed.

(** An entry holding a value is masked exactly when the value is outside
    the window. *)
Lemma outside_window_mask (midnight : Z) (v : Q) :
  lt (Some v) (midnight - 10) || gt (Some v) (midnight + 10) = true
  <-> outside_window midnight v.
Proof.
  unfold lt, gt, outside_window. rewrite orb_true_iff, !negb_true_iff.
  split; intros [H | H]; [left | right | left | right].
  - apply Qnot_le_lt. intros Hle. apply Qle_bool_iff in Hle. congruence.
  - apply Qnot_le_lt. intros Hle. apply Qle_bool_iff in Hle. congruence.
  - destruct (Qle_bool _ v) eqn:E; [| reflexivity].
    apply Qle_bool_iff in E. exfalso. apply (Qlt_not_le _ _ H E).
  - destruct (Qle_bool v _) eqn:E; [| reflexivity].
    apply Qle_bool_iff in E. exfalso. apply (Qlt_not_le _ _ H E).
Qed.

(** Masking keeps every entry in its place. *)
Lemma masked_entry (x : list (option Q)) (midnight : Z) (i : nat) (e : option Q) :
  nth_error x i = Some e ->
  let a := masked_outside x (midnight + 10) (midnight - 10) in
  nth_error (data a) i = Some e
  /\ nth_error (mask a) i
     = Some (lt e (midnight - 10) || gt e (midnight + 10)).
Proof.
  intros H. cbv zeta. rewrite masked_outside_window. cbn [data mask].
  split; [exact H |]. rewrite nth_error_map, H. reflexivity.
Qed.

(** C5.  The rise series and the set series of [get_planet_times] have
    one entry per day of the sequence, entry [i] being the sample of day
    [i]; the mask has the same length, leaves the data where they are,
    and masks a value exactly when it lies outside
    [midnight - 10, midnight + 10]; in particular the value
    [midnight + 15] is masked and still present at its index. *)
Theorem series_keep_length_and_alignment lib body times td w :
  let res := fst (get_planet_times lib body times td w) in
  let midnight := (- td)%Z in
  (data (fst res) = map (sample lib Rising (site w) body (ref_rise td)) times
   /\ data (snd res) = map (sample lib Setting (site w) body (ref_rise td)) times)
  /\ forall a : masked_array,
      a = fst res \/ a = snd res ->
      length (data a) = length times
      /\ length (mask a) = length times
      /\ (forall (i : nat) (v : Q),
             nth_error (data a) i = Some (Some v) ->
             (nth_error (mask a) i = Some true <-> outside_window midnight v)
             /\ (nth_error (mask a) i = Some false <-> ~ outside_window midnight v)
             /\ (v == inject_Z (midnight + 15) -> nth_error (mask a) i = Some true)).
Proof.
  cbv zeta. rewrite get_planet_times_run. cbn [fst snd].
  split; [split; reflexivity |].
  intros a Ha.
  assert (Hx : exists x, length x = length times
                         /\ a = masked_outside x (- td + 10) (- td - 10)).
  { destruct Ha as [-> | ->]; eexists; (split; [| reflexivity]);
      apply length_map. }
  destruct Hx as (x & Hlen & ->).
  rewrite masked_outside_window. cbn [data mask].
  split; [exact Hlen |].
  split; [rewrite length_map; exact Hlen |].
  intros i v Hi. rewrite nth_error_map, Hi. cbn [option_map].
  pose proof (outside_window_mask (- td) v) as Hm.
  destruct (lt (Some v) (- td - 10) || gt (Some v) (- td + 10)) eqn:E.
  - split; [tauto |]. split; [| reflexivity].
    split; [discriminate |]. intros Hn. exfalso. apply Hn, Hm. reflexivity.
  - assert (Hn : ~ outside_window (- td) v).
    { intros Ho. apply Hm in Ho. discriminate Ho. }
    split; [split; [discriminate | intros Ho; contradiction] |].
    split; [tauto |].
    intros Hv. exfalso. apply Hn. right. rewrite Hv.
    rewrite <- Zlt_Qlt. lia.
Qed.

(** C5 at offset 30 (midnight -30, noon 6): the sample -15 of the second
    day is [midnight + 15]; it is masked, and both arrays keep two
    entries. *)
Lemma series_keep_length_and_alignment_witness :
  let res := fst (get_planet_times (constant_library (3 # 8)) Sun
                    ["2017/1/01"%string; "2017/1/02"%string] 30 (start 0 0)) in
  length (data (fst res)) = 2%nat
  /\ length (mask (fst res)) = 2%nat
  /\ nth_error (mask (fst res)) 1 = Some true.
Proof.
  cbv zeta.
  destruct (series_keep_length_and_alignment (constant_library (3 # 8)) Sun
              ["2017/1/01"%string; "2017/1/02"%string] 30 (start 0 0))
    as [_ H].
  destruct (H _ (or_introl eq_refl)) as (Hd & Hm & Hw).
  split; [exact Hd |]. split; [exact Hm |].
  destruct (Hw 1%nat (normalize (3 # 8) (ref_rise 30)))
    as (_ & _ & H15).
  - reflexivity.
  - apply H15. vm_compute. reflexivity.
Defined.

End ChartFacts.

(** ** The main program *)

Module ProgramFacts.

Import Ephem Numpy Chart Program ChartFacts.

(** [int(_)] is the floor of a non-negative float and the ceiling of a
    non-positive one. *)
Lemma int_nonneg (x : Q) : 0 <= x -> Py.int x = Qfloor x.
Proof.
  destruct x as [n d]. unfold Qle, Py.int, Qfloor. cbn [Qnum Qden].
  intros H. apply Z.quot_div_nonneg; lia.
Qed.

Lemma int_nonpos (x : Q) : x <= 0 -> Py.int x = Qceiling x.
Proof.
  destruct x as [n d]. unfold Qle, Py.int, Qceiling, Qfloor.
  cbn [Qnum Qden Qopp]. intros H.
  rewrite <- (Z.opp_involutive n) at 1.
  rewrite Z.quot_opp_l by lia.
  rewrite Z.quot_div_nonneg by lia. reflexivity.
Qed.

Lemma int_comp (a b : Q) : a == b -> Py.int a = Py.int b.
Proof.
  intros E. destruct (Qlt_le_dec a 0) as [H | H].
  - rewrite (int_nonpos a), (int_nonpos b) by lra. apply Qceiling_comp, E.
  - rewrite (int_nonneg a), (int_nonneg b) by lra. apply Qfloor_comp, E.
Qed.

(** Between two ints line 103 gives the floor of the quotient. *)
Lemma int_quotient (n : Z) : (n / 15)%Z = Qfloor (inject_Z n / 15).
Proof.
  unfold Qfloor, Qdiv, Qmult, Qinv, inject_Z. cbn [Qnum Qden].
  rewrite Z.mul_1_r. reflexivity.
Qed.

(** For a float from 0 to 180 the rounding of the quotient does not
    reach the next integer: line 103 gives the floor of the exact
    quotient. *)
Lemma float_quotient_east (q : Q) :
  Binary64.representable q -> 0 <= q -> q <= 180 ->
  Py.int (Binary64.fdiv q 15) = Qfloor (q / 15).
Proof.
  intros Hr H0 H180. unfold Binary64.fdiv.
  assert (E15 : q == q / 15 * 15) by field.
  pose proof (Qfloor_le (q / 15)) as Flo.
  pose proof (Qlt_floor (q / 15)) as Fhi.
  set (f := Qfloor (q / 15)) in *.
  assert (Hf0 : (0 <= f)%Z).
  { assert (A : inject_Z (-1) < inject_Z f).
    { assert (B : inject_Z (f + 1) = inject_Z f + 1)
        by (rewrite inject_Z_plus; reflexivity).
      rewrite B in Fhi. change (inject_Z (-1)) with (-1). lra. }
    rewrite <- Zlt_Qlt in A. lia. }
  assert (Hf12 : (f <= 12)%Z).
  { assert (A : inject_Z f <= inject_Z 12)
      by (change (inject_Z 12) with 12; lra).
    rewrite <- Zle_Qle in A. exact A. }
  assert (Rlo : inject_Z f <= Binary64.round64 (q / 15))
    by (apply Binary64Facts.round64_ge_int; [lia | exact Flo]).
  assert (Rnn : 0 <= Binary64.round64 (q / 15))
    by (apply Binary64Facts.round64_nonneg; lra).
  rewrite (int_nonneg _ Rnn).
  destruct (Qlt_le_dec q 180) as [Hlt | Hge].
  - assert (Hf11 : (f < 12)%Z).
    { assert (A : inject_Z f < inject_Z 12)
        by (change (inject_Z 12) with 12; lra).
      rewrite <- Zlt_Qlt in A. exact A. }
    apply Binary64Facts.floor_unique; [exact Rlo |].
    apply Binary64Facts.quotient_below; [lia | exact Hr |].
    rewrite inject_Z_mult. change (inject_Z 15) with 15. lra.
  - assert (E : q / 15 == inject_Z 12)
      by (change (inject_Z 12) with 12; lra).
    assert (Er : Binary64.round64 (q / 15) == inject_Z 12).
    { rewrite E. apply Binary64Facts.round64_small_int. lia. }
    rewrite (Qfloor_comp _ _ Er). subst f. rewrite (Qfloor_comp _ _ E).
    reflexivity.
Qed.

(** For a float from -180 to 0 it gives the ceiling. *)
Lemma float_quotient_west (q : Q) :
  Binary64.representable q -> -180 <= q -> q <= 0 ->
  Py.int (Binary64.fdiv q 15) = Qceiling (q / 15).
Proof.
  intros Hr Hlo Hhi. unfold Binary64.fdiv.
  assert (Eq : q / 15 == - (- q / 15)) by field.
  assert (Er : Binary64.round64 (q / 15) == - Binary64.round64 (- q / 15)).
  { rewrite Eq at 1. apply Binary64Facts.round64_opp. }
  pose proof (float_quotient_east (- q)
                (Binary64Facts.representable_opp q Hr)) as He.
  unfold Binary64.fdiv in He.
  assert (Rnn : 0 <= Binary64.round64 (- q / 15)).
  { apply Binary64Facts.round64_nonneg.
    assert (A : - q / 15 * 15 == - q) by field. lra. }
  rewrite (int_nonneg _ Rnn) in He.
  rewrite (int_comp _ _ Er), int_nonpos by lra.
  unfold Qceiling.
  assert (E1 : - - Binary64.round64 (- q / 15) == Binary64.round64 (- q / 15))
    by ring.
  assert (E2 : - (q / 15) == - q / 15) by field.
  rewrite (Qfloor_comp _ _ E1), (Qfloor_comp _ _ E2), He by lra.
  reflexivity.
Qed.

(** C2, amended.  The offset is [int(longitude / 15)]: the floor of the
    quotient for a longitude written as an int, where [/] is the floor
    division of Python 2, and for a float from 0 to 180; the ceiling,
    that is truncation toward zero, for a float from -180 to 0; for the
    longitude -80.552901 it is -5, so local midnight is at 5 hours
    UTC. *)
Theorem offset_truncates_toward_zero :
  (forall n : Z, time_diff (Py.Int n) = Py.floor (inject_Z n / 15))
  /\ (forall q : Q,
         Binary64.representable q -> 0 <= q -> q <= 180 ->
         time_diff (Py.Float q) = Py.floor (q / 15))
  /\ (forall q : Q,
         Binary64.representable q -> -180 <= q -> q <= 0 ->
         time_diff (Py.Float q) = Qceiling (q / 15))
  /\ time_diff (longitude default_config) = (-5)%Z
  /\ (- time_diff (longitude default_config) = 5)%Z.
Proof.
  split; [intros n; apply int_quotient |].
  split; [intros q; apply float_quotient_east |].
  split; [intros q; apply float_quotient_west |].
  split; vm_compute; reflexivity.
Qed.

(** C2 at the int -80, where the offset is -6, and at the floats 165 and
    -82.5, where it is 11 and -5. *)
Lemma offset_truncates_toward_zero_witness :
  time_diff (Py.Int (-80)) = (-6)%Z
  /\ time_diff (Py.Float 165) = Py.floor (165 / 15)
  /\ time_diff (Py.Float (- (165 # 2))) = Qceiling (- (165 # 2) / 15).
Proof.
  destruct offset_truncates_toward_zero as (Hint & Heast & Hwest & _).
  split; [rewrite Hint; reflexivity |].
  split.
  - apply Heast; [vm_compute; reflexivity | discriminate | discriminate].
  - apply Hwest; [vm_compute; reflexivity | discriminate | discriminate].
Defined.

(** C2 as stated fails at the default longitude -80.552901, where the
    offset is -5 and the floor of [longitude / 15] is -6. *)
Lemma offset_floor_counterexample :
  ~ offset_is_floor (longitude default_config).
Proof. vm_compute. discriminate. Qed.

Lemma queries_for_length o body times :
  length (queries_for o body times) = (2 * length times)%nat.
Proof.
  unfold queries_for. induction times as [| t rest IH]; [reflexivity |].
  cbn [flat_map length app]. rewrite IH. lia.
Qed.

(** Lines 145-156 make eighteen queries per day: a rising and a setting
    for each of eight bodies and for the twilight of the Sun. *)
Lemma rise_and_set_log_length lib times td w :
  length (asked (snd (rise_and_set_arrays lib times td w)))
  = (length (asked w) + 18 * length times)%nat.
Proof.
  unfold rise_and_set_arrays, bind.
  repeat (rewrite get_planet_times_run; cbv beta iota).
  cbn [set_horizon site asked].
  repeat (rewrite get_planet_times_run; cbv beta iota).
  unfold ret. cbn [snd asked].
  rewrite !length_app, !queries_for_length. lia.
Qed.

Lemma fix_longitude_cases (lon : Py.number) :
  (Py.value lon == -180 /\ fix_longitude lon = Py.Float 180)
  \/ (~ Py.value lon == -180 /\ fix_longitude lon = lon).
Proof.
  unfold fix_longitude. destruct (Qeq_bool (Py.value lon) (-180)) eqn:E.
  - left. split; [apply Qeq_bool_iff; exact E | reflexivity].
  - right. split; [| reflexivity]. intros H. apply Qeq_bool_iff in H. congruence.
Qed.

Lemma qle_bool_false (a b : Q) : negb (Qle_bool a b) = true <-> b < a.
Proof.
  rewrite negb_true_iff. split.
  - intros E. apply Qnot_le_lt. intros H. apply Qle_bool_iff in H. congruence.
  - intros H. destruct (Qle_bool a b) eqn:E; [| reflexivity].
    apply Qle_bool_iff in E. exfalso. apply (Qlt_not_le _ _ H E).
Qed.

(** The tests of lines 97 and 99 refuse exactly the values out of
    bounds. *)
Lemma longitude_check (lon : Py.number) :
  negb (Qle_bool (-180) (Py.value (fix_longitude lon)))
  || negb (Qle_bool (Py.value (fix_longitude lon)) 180) = true
  <-> Py.value lon < -180 \/ 180 < Py.value lon.
Proof.
  rewrite orb_true_iff, !qle_bool_false.
  destruct (fix_longitude_cases lon) as [[He ->] | [_ ->]]; [| tauto].
  cbn [Py.value]. split.
  - intros [H | H]; vm_compute in H; discriminate H.
  - rewrite He. intros [H | H]; vm_compute in H; discriminate H.
Qed.

Lemma latitude_check (lat : Q) :
  negb (Qle_bool (-90) lat) || negb (Qle_bool lat 90) = true
  <-> lat < -90 \/ 90 < lat.
Proof. rewrite orb_true_iff, !qle_bool_false. tauto. Qed.

(** A configuration out of bounds ends the program with a [ValueError]
    and no query made. *)
Lemma main_out_of_bounds lib fuel cfg :
  out_of_bounds cfg ->
  exists msg, main lib fuel cfg = Some (inl (Py.ValueError msg), []).
Proof.
  intros H. unfold main. cbv zeta.
  destruct (negb (Qle_bool (-180) (Py.value (fix_longitude (longitude cfg))))
            || negb (Qle_bool (Py.value (fix_longitude (longitude cfg))) 180))
    eqn:Elon.
  - eexists; reflexivity.
  - destruct (negb (Qle_bool (-90) (latitude cfg))
              || negb (Qle_bool (latitude cfg) 90)) eqn:Elat.
    + eexists; reflexivity.
    + exfalso. destruct H as [H | [H | H]].
      * assert (Ht : true = false)
          by (rewrite <- Elat; symmetry; apply latitude_check; tauto).
        discriminate Ht.
      * assert (Ht : true = false)
          by (rewrite <- Elat; symmetry; apply latitude_check; tauto).
        discriminate Ht.
      * assert (Ht : true = false)
          by (rewrite <- Elon; symmetry; apply longitude_check; tauto).
        discriminate Ht.
Qed.

(** A configuration within bounds runs to the end of line 156. *)
Lemma main_in_bounds lib fuel cfg :
  ~ out_of_bounds cfg ->
  let lon := fix_longitude (longitude cfg) in
  let times := map (Calendar.key_of (year cfg)) Calendar.calendar in
  let run := rise_and_set_arrays lib times (time_diff lon)
               (start (latitude cfg) lon) in
  main lib (366 + fuel) cfg
  = Some (inr {| used_time_diff := time_diff lon;
                 used_times := times;
                 arrays := fst run;
                 final_site := site (snd run) |},
          asked (snd run)).
Proof.
  intros H. cbv zeta. unfold main. cbv zeta.
  destruct (negb (Qle_bool (-180) (Py.value (fix_longitude (longitude cfg))))
            || negb (Qle_bool (Py.value (fix_longitude (longitude cfg))) 180))
    eqn:Elon.
  { exfalso. apply H. apply longitude_check in Elon. unfold out_of_bounds. tauto. }
  destruct (negb (Qle_bool (-90) (latitude cfg))
            || negb (Qle_bool (latitude cfg) 90)) eqn:Elat.
  { exfalso. apply H. apply latitude_check in Elat. unfold out_of_bounds. tauto. }
  rewrite CalendarFacts.build_time_array_366.
  destruct (rise_and_set_arrays _ _ _ _) as [a w]. reflexivity.
Qed.


(** C6.  When the library raises for a body and a date, the rise query,
    respectively the set query, returns [None] for that day; the series
    still has its entry for every day, with [None] at that day's index;
    and whatever the library answers, a program with a configuration
    within bounds runs all its eighteen queries for each of the 365 days
    and ends without an exception. *)
Theorem no_event_is_absent_not_fatal lib :
  (forall planet d ref w e,
      next_rising lib (with_date (site w) d) planet = inl e ->
      fst (get_body_rise lib planet d ref w) = None)
  /\ (forall planet d ref w e,
         next_setting lib (with_date (site w) d) planet = inl e ->
         fst (get_body_set lib planet d ref w) = None)
  /\ (forall body times td w i day e,
         nth_error times i = Some day ->
         let res := fst (get_planet_times lib body times td w) in
         (next_rising lib (with_date (site w) day) body = inl e ->
          nth_error (data (fst res)) i = Some None
          /\ length (data (fst res)) = length times)
         /\ (next_setting lib (with_date (site w) day) body = inl e ->
             nth_error (data (snd res)) i = Some None
             /\ length (data (snd res)) = length times))
  /\ (forall cfg fuel,
         ~ out_of_bounds cfg ->
         exists out log,
           main lib (366 + fuel) cfg = Some (inr out, log)
           /\ length (used_times out) = 365%nat
           /\ length log = (18 * 365)%nat).
Proof.
  split; [| split; [| split]].
  - intros planet d ref w e H.
    rewrite get_body_rise_event, get_body_event_run. cbn [fst].
    unfold sample. cbn [answer]. rewrite H. reflexivity.
  - intros planet d ref w e H.
    rewrite get_body_set_event, get_body_event_run. cbn [fst].
    unfold sample. cbn [answer]. rewrite H. reflexivity.
  - intros body times td w i day e Hday. cbv zeta.
    rewrite get_planet_times_run. cbn [fst snd].
    unfold masked_outside. cbn [data].
    split; intros H; (split; [| apply length_map]);
      rewrite nth_error_map, Hday; cbn [option_map];
      unfold sample; cbn [answer]; rewrite H; reflexivity.
  - intros cfg fuel Hcfg.
    do 2 eexists. split; [apply main_in_bounds; exact Hcfg |].
    cbn [used_times]. split.
    + rewrite length_map. exact CalendarFacts.calendar_length.
    + rewrite rise_and_set_log_length, length_map, CalendarFacts.calendar_length.
      reflexivity.
Qed.

(** C6 with a library that raises on every query. *)
Lemma no_event_is_absent_not_fatal_witness :
  fst (get_body_rise failing_library Mars "2017/1/01" 17 (start 0 0)) = None
  /\ fst (get_body_set failing_library Mars "2017/1/01" 17 (start 0 0)) = None
  /\ exists out log,
      main failing_library 366 default_config = Some (inr out, log)
      /\ length (used_times out) = 365%nat
      /\ length log = (18 * 365)%nat.
Proof.
  destruct (no_event_is_absent_not_fatal failing_library)
    as (Hrise & Hset & _ & Hmain).
  split; [apply (Hrise Mars "2017/1/01"%string 17 (start 0 0)
                       (Py.EphemError "NeverUpError")); reflexivity |].
  split; [apply (Hset Mars "2017/1/01"%string 17 (start 0 0)
                      (Py.EphemError "NeverUpError")); reflexivity |].
  apply (Hmain default_config 0%nat).
  unfold out_of_bounds. intros [H | [H | [H | H]]]; vm_compute in H; discriminate H.
Defined.

(** C7.  With a latitude outside [-90, 90] or a longitude outside
    [-180, 180] the program ends with a [ValueError], the list of
    ephemeris queries still empty; otherwise the checks pass and the
    program goes on to make its queries. *)
Theorem bounds_checked_before_any_query lib fuel cfg :
  (out_of_bounds cfg ->
   exists msg, main lib fuel cfg = Some (inl (Py.ValueError msg), []))
  /\ (~ out_of_bounds cfg ->
      exists out log,
        main lib (366 + fuel) cfg = Some (inr out, log)
        /\ length log = (18 * 365)%nat).
Proof.
  split; [apply main_out_of_bounds |].
  intros H. do 2 eexists. split; [apply main_in_bounds; exact H |].
  rewrite rise_and_set_log_length, length_map, CalendarFacts.calendar_length.
  reflexivity.
Qed.

(** C7 at latitude 91, at longitude 181, and at the default settings. *)
Lemma bounds_checked_before_any_query_witness :
  (exists msg,
      main failing_library 366 {| latitude := 91; longitude := 0; year := 2017 |}
      = Some (inl (Py.ValueError msg), []))
  /\ (exists msg,
         main failing_library 366 {| latitude := 0; longitude := 181; year := 2017 |}
         = Some (inl (Py.ValueError msg), []))
  /\ (exists out log,
         main failing_library 366 default_config = Some (inr out, log)
         /\ length log = (18 * 365)%nat).
Proof.
  split; [| split].
  - apply (proj1 (bounds_checked_before_any_query failing_library 366
                    {| latitude := 91; longitude := 0; year := 2017 |})).
    right; left. reflexivity.
  - apply (proj1 (bounds_checked_before_any_query failing_library 366
                    {| latitude := 0; longitude := 181; year := 2017 |})).
    right; right; right. reflexivity.
  - apply (proj2 (bounds_checked_before_any_query failing_library 0
                    default_config)).
    unfold out_of_bounds.
    intros [H | [H | [H | H]]]; vm_compute in H; discriminate H.
Defined.

(** C8.  A longitude of -180 is replaced by 180 before the bounds are
    checked, and from there on the program is the one for 180: same
    offset (12), same observing site, same result and same queries. *)
Theorem longitude_minus_180_is_plus_180 lib fuel lat y :
  fix_longitude (-180) = 180
  /\ fix_longitude 180 = 180
  /\ time_diff (fix_longitude (-180)) = time_diff (fix_longitude 180)
  /\ time_diff (fix_longitude (-180)) = 12%Z
  /\ observing_site lat (fix_longitude (-180))
     = observing_site lat (fix_longitude 180)
  /\ main lib fuel {| latitude := lat; longitude := -180; year := y |}
     = main lib fuel {| latitude := lat; longitude := 180; year := y |}
  /\ fix_longitude (Py.Int (-180)) = 180
  /\ main lib fuel {| latitude := lat; longitude := Py.Int (-180); year := y |}
     = main lib fuel {| latitude := lat; longitude := 180; year := y |}.
Proof.
  assert (Hmain : forall l : Py.number,
             fix_longitude l = Py.Float 180 ->
             main lib fuel {| latitude := lat; longitude := l; year := y |}
             = main lib fuel {| latitude := lat; longitude := 180; year := y |}).
  { intros l Hl. unfold main. cbn [longitude latitude year]. rewrite Hl.
    change (fix_longitude (Py.Float 180)) with (Py.Float 180). reflexivity. }
  do 5 (split; [reflexivity |]).
  split; [apply Hmain; reflexivity |].
  split; [reflexivity |].
  apply Hmain. reflexivity.
Qed.

End ProgramFacts.

(** ** More on the date keys *)

Module CalendarMore.

Import Calendar Notions CalendarFacts.
Open Scope Z_scope.

(** A key is the year followed by a part that depends on the month and
    the day only. *)
Lemma date_key_suffix (year m d : Z) :
  date_key year m d = (Py.str year ++ key_suffix m d)%string.
Proof. unfold date_key, key_suffix. destruct (10 <=? d); reflexivity. Qed.

Lemma append_inj_r (p a b : string) :
  (p ++ a)%string = (p ++ b)%string -> a = b.
Proof.
  induction p as [| c p IH]; cbn [append]; intros H; [exact H |].
  injection H as H. apply IH, H.
Qed.

Lemma distinctb_NoDup (l : list string) : distinctb l = true -> NoDup l.
Proof.
  induction l as [| x rest IH]; cbn [distinctb]; intros H; [constructor |].
  apply andb_true_iff in H. destruct H as [Hx Hrest].
  constructor; [| apply IH, Hrest].
  intros Hin. apply negb_true_iff in Hx.
  assert (He : existsb (String.eqb x) rest = true).
  { apply existsb_exists. exists x. split; [exact Hin | apply String.eqb_refl]. }
  congruence.
Qed.

Lemma suffixes_distinct :
  distinctb (map (fun md => key_suffix (fst md) (snd md)) calendar) = true.
Proof. vm_compute. reflexivity. Qed.

(** X1.  For every year the loop builds 365 date keys that are pairwise
    distinct: no key occurs at two places of the sequence. *)
Theorem date_keys_distinct (year : Z) :
  exists keys : list string,
    Program.build_time_array 366 year = Some (inr keys)
    /\ NoDup keys
    /\ forall i j : nat,
        (i < 365)%nat -> (j < 365)%nat ->
        nth_error keys i = nth_error keys j -> i = j.
Proof.
  exists (map (key_of year) calendar).
  split; [exact (build_time_array_366 year 0) |].
  assert (Hnd : NoDup (map (key_of year) calendar)).
  { rewrite (map_ext (key_of year)
               (fun md => append (Py.str year)
                            ((fun md => key_suffix (fst md) (snd md)) md))).
    - rewrite <- (map_map (fun md => key_suffix (fst md) (snd md))
                          (append (Py.str year))).
      apply NoDup_map_NoDup_ForallPairs.
      + intros a b _ _ H. apply (append_inj_r _ _ _ H).
      + apply distinctb_NoDup, suffixes_distinct.
    - intros [m d]. apply date_key_suffix. }
  split; [exact Hnd |].
  intros i j Hi Hj H.
  rewrite NoDup_nth_error in Hnd. apply Hnd; [| exact H].
  rewrite length_map, calendar_length. exact Hi.
Qed.

(** X1 at the leap year 2016, for the places 58 and 59. *)
Lemma date_keys_distinct_witness :
  exists keys : list string,
    Program.build_time_array 366 2016 = Some (inr keys)
    /\ (nth_error keys 58 = nth_error keys 59 -> 58 = 59)%nat.
Proof.
  destruct (date_keys_distinct 2016) as (keys & Hk & _ & Hinj).
  exists keys. split; [exact Hk |].
  apply Hinj; lia.
Defined.

Lemma index_ok_all :
  forallb (fun m => forallb (index_ok m) (seq 1 31)) (seq 1 12) = true.
Proof. vm_compute. reflexivity. Qed.

Lemma entry_ok_all : forallb entry_ok (seq 0 365) = true.
Proof. vm_compute. reflexivity. Qed.

Lemma month_length_le_31 (m : Z) : month_length m <= 31.
Proof.
  unfold month_length.
  assert (H : forall n, nth n days_in_month 0 <= 31).
  { intros n. do 13 (destruct n as [| n]; [cbn; lia |]). cbn.  destruct n; lia. }
  apply H.
Qed.

(** A date the month lengths have is in the calendar, at its place. *)
Lemma calendar_at_index (m d : Z) :
  valid_date m d -> nth_error calendar (day_index m d) = Some (m, d).
Proof.
  intros [[Hm1 Hm2] [Hd1 Hd2]].
  pose proof (month_length_le_31 m) as H31.
  pose proof index_ok_all as H.
  rewrite forallb_forall in H.
  assert (Hm : In (Z.to_nat m) (seq 1 12)) by (apply in_seq; lia).
  apply H in Hm. rewrite forallb_forall in Hm.
  assert (Hin : In (Z.to_nat d) (seq 1 31)) by (apply in_seq; lia).
  apply Hm in Hin. unfold index_ok in Hin.
  rewrite !Z2Nat.id in Hin by lia.
  apply orb_true_iff in Hin. destruct Hin as [Hin | Hin].
  - apply negb_true_iff, Z.leb_gt in Hin. lia.
  - destruct (nth_error calendar (day_index m d)) as [[m' d'] |]; [| discriminate].
    apply andb_true_iff in Hin. destruct Hin as [Ha Hb].
    apply Z.eqb_eq in Ha, Hb. subst. reflexivity.
Qed.

(** Every entry of the calendar is a date the month lengths have. *)
Lemma calendar_entry_valid (i : nat) :
  (i < 365)%nat ->
  valid_date (month_at i) (day_at i)
  /\ day_index (month_at i) (day_at i) = i.
Proof.
  intros Hi. pose proof entry_ok_all as H.
  rewrite forallb_forall in H. specialize (H i).
  assert (Hin : In i (seq 0 365)) by (apply in_seq; lia).
  apply H in Hin. unfold entry_ok in Hin. cbv zeta in Hin.
  repeat (apply andb_true_iff in Hin; destruct Hin as [Hin ?]).
  repeat match goal with
         | H : (_ <=? _) = true |- _ => apply Z.leb_le in H
         | H : (_ =? _)%nat = true |- _ => apply Nat.eqb_eq in H
         end.
  unfold valid_date. repeat split; assumption.
Qed.

(** X2.  For every year, the key of day [d] of month [m] stands at the
    place given by the days of the months before [m] plus [d - 1], for
    every date the fixed month lengths have; and every one of the 365
    places holds the key of such a date. *)
Theorem day_of_year_index (year : Z) :
  exists keys : list string,
    Program.build_time_array 366 year = Some (inr keys)
    /\ (forall m d : Z,
           valid_date m d ->
           nth_error keys (day_index m d) = Some (date_key year m d))
    /\ (forall i : nat,
           (i < 365)%nat ->
           exists m d : Z,
             valid_date m d /\ day_index m d = i
             /\ nth_error keys i = Some (date_key year m d)).
Proof.
  exists (map (key_of year) calendar).
  split; [exact (build_time_array_366 year 0) |].
  split.
  - intros m d H. rewrite nth_error_map, (calendar_at_index m d H). reflexivity.
  - intros i Hi. destruct (calendar_entry_valid i Hi) as [Hv Hidx].
    exists (month_at i), (day_at i). split; [exact Hv |]. split; [exact Hidx |].
    rewrite nth_error_map.
    rewrite <- Hidx at 1. rewrite (calendar_at_index _ _ Hv). reflexivity.
Qed.

(** X2 at the year 2020: place 59 holds the first of March, and place
    364 holds a date of the calendar. *)
Lemma day_of_year_index_witness :
  exists keys : list string,
    Program.build_time_array 366 2020 = Some (inr keys)
    /\ nth_error keys 59 = Some "2020/3/01"%string
    /\ exists m d : Z, valid_date m d /\ day_index m d = 364%nat
                       /\ nth_error keys 364 = Some (date_key 2020 m d).
Proof.
  destruct (day_of_year_index 2020) as (keys & Hk & Hfind & Hall).
  exists keys. split; [exact Hk |]. split.
  - apply (Hfind 3 1). repeat split; vm_compute; discriminate.
  - apply Hall. lia.
Defined.

(** X5.  A key is the year, the month and the day joined by slashes,
    the day in exactly two decimal digits (a leading zero below ten); the
    month is printed as it is. *)
Theorem day_is_printed_in_two_digits (year m d : Z) :
  0 <= d <= 99 ->
  date_key year m d
  = (Py.str year ++ "/" ++ Py.str m ++ "/" ++ two_digits d)%string.
Proof.
  intros Hd.
  assert (Hk : exists k : nat, (k < 100)%nat /\ d = Z.of_nat k)
    by (exists (Z.to_nat d); lia).
  destruct Hk as (k & Hk & ->). clear Hd.
  do 100 (destruct k as [| k]; [reflexivity | apply Nat.succ_lt_mono in Hk]).
  lia.
Qed.

(** X5 at the seventh of March 2017. *)
Lemma day_is_printed_in_two_digits_witness :
  date_key 2017 3 7 = "2017/3/07"%string.
Proof.
  rewrite (day_is_printed_in_two_digits 2017 3 7) by lia. reflexivity.
Defined.

End CalendarMore.

(** ** More on the calendar loop *)

Module LoopMore.

Import Calendar Notions.
Open Scope Z_scope.

(** [days_in_month[i]] for an index from -12 to 11 is a month length. *)
Lemma index_in_range (i : Z) :
  -12 <= i <= 11 ->
  exists len, Py.index days_in_month i = inr len /\ 28 <= len <= 31.
Proof.
  intros Hi. unfold Py.index.
  change (Z.of_nat (length days_in_month)) with 12.
  set (j := if i <? 0 then i + 12 else i).
  assert (Hj : 0 <= j <= 11) by (subst j; destruct (Z.ltb_spec i 0); lia).
  destruct (Z.ltb_spec j 0) as [Hneg | _]; [lia |].
  assert (Hc : j = 0 \/ j = 1 \/ j = 2 \/ j = 3 \/ j = 4 \/ j = 5 \/ j = 6
               \/ j = 7 \/ j = 8 \/ j = 9 \/ j = 10 \/ j = 11) by lia.
  clearbody j.
  repeat (destruct Hc as [-> | Hc]; [eexists; split; [reflexivity | lia] |]).
  subst j. eexists; split; [reflexivity | lia].
Qed.

(** [days_in_month[i]] raises for every other index. *)
Lemma index_out_of_range (i : Z) :
  i < -12 \/ 11 < i -> Py.index days_in_month i = inl Py.IndexError.
Proof.
  intros Hi. unfold Py.index.
  change (Z.of_nat (length days_in_month)) with 12.
  set (j := if i <? 0 then i + 12 else i).
  assert (Hj : j < 0 \/ 11 < j) by (subst j; destruct (Z.ltb_spec i 0); lia).
  clearbody j.
  destruct (Z.ltb_spec j 0) as [_ | Hpos]; [reflexivity |].
  assert (Hn : nth_error days_in_month (Z.to_nat j) = None).
  { apply nth_error_None. change (length days_in_month) with 12%nat. lia. }
  rewrite Hn. reflexivity.
Qed.

Lemma roll_day_raises (c m cum : Z) :
  m < -11 \/ 12 < m -> roll_day c m cum = inl Py.IndexError.
Proof.
  intros Hm. unfold roll_day.
  rewrite index_out_of_range by lia. reflexivity.
Qed.

Lemma roll_day_returns (c m cum : Z) :
  -11 <= m <= 12 ->
  exists cum' m' d,
    roll_day c m cum = inr (cum', m', d)
    /\ 1 <= d <= 31
    /\ m <= m' <= m + 1
    /\ cum <= cum' <= cum + 31.
Proof.
  intros Hm. unfold roll_day.
  destruct (index_in_range (m - 1)) as (len & -> & Hlen); [lia |].
  cbv zeta.
  pose proof (Z.mod_pos_bound (c * 24 * 60 / 60 / 24 - cum) len) as Hmod.
  destruct (_ && _); do 3 eexists; (split; [reflexivity |]); lia.
Qed.

(** X3.  With [count] and [cumulative_days] at most [2^52] in
    magnitude, where the float arithmetic of line 131 is exact, lines
    130-135 raise [IndexError] exactly for a month below -11 or above 12
    (a month from -11 to 0 reads the list from its end); for every other
    month the day they give is from 1 to 31, the month stays or goes up
    by one, and the running total of days grows by at most 31. *)
Theorem roll_day_cases (c m cum : Z) :
  Z.abs c <= 2 ^ 52 -> Z.abs cum <= 2 ^ 52 ->
  (m < -11 \/ 12 < m -> roll_day c m cum = inl Py.IndexError)
  /\ (-11 <= m <= 12 ->
      exists cum' m' d,
        roll_day c m cum = inr (cum', m', d)
        /\ 1 <= d <= 31
        /\ m <= m' <= m + 1
        /\ cum <= cum' <= cum + 31).
Proof.
  intros _ _.
  split; [apply roll_day_raises | apply roll_day_returns].
Qed.

(** X3 at month 13, and at day 59 of the year, where February ends. *)
Lemma roll_day_cases_witness :
  roll_day 0 13 0 = inl Py.IndexError
  /\ exists cum' m' d,
      roll_day 59 2 31 = inr (cum', m', d)
      /\ 1 <= d <= 31 /\ 2 <= m' <= 2 + 1 /\ 31 <= cum' <= 31 + 31.
Proof.
  split.
  - apply (proj1 (roll_day_cases 0 13 0 ltac:(discriminate) ltac:(discriminate))).
    right. reflexivity.
  - apply (proj2 (roll_day_cases 59 2 31 ltac:(discriminate) ltac:(discriminate))).
    split; discriminate.
Defined.

Lemma roll_day_steps (c m cum cum' m' d : Z) :
  roll_day c m cum = inr (cum', m', d) ->
  m <= m' <= m + 1 /\ cum <= cum'.
Proof.
  intros H.
  destruct (Z_le_gt_dec (-11) m) as [Hlo |];
    [destruct (Z_le_gt_dec m 12) as [Hhi |] |].
  - destruct (roll_day_returns c m cum) as (a & b & e & Hr & _ & Hb & Ha);
      [lia |].
    rewrite Hr in H. injection H as <- <- <-. lia.
  - rewrite (roll_day_raises c m cum) in H by lia. discriminate H.
  - rewrite (roll_day_raises c m cum) in H by lia. discriminate H.
Qed.

(** An iteration that goes on appends one key and advances [count]. *)
Lemma loop_body_next (s s1 : loop_state) :
  loop_body s = Next s1 ->
  current_year s1 = current_year s
  /\ count s1 = count s + 1
  /\ (exists key, time_array s1 = time_array s ++ [key])
  /\ month s <= month s1 <= 12
  /\ cumulative_days s <= cumulative_days s1.
Proof.
  unfold loop_body.
  destruct (roll_day _ _ _) as [e | [[cum' m'] d]] eqn:Hr; [discriminate |].
  apply roll_day_steps in Hr.
  destruct (Z.ltb_spec 12 m') as [Hgt | Hle]; [discriminate |].
  intros E. injection E as <-. cbn.
  repeat split; try lia. eexists; reflexivity.
Qed.

(** An iteration that breaks appends nothing. *)
Lemma loop_body_break (s s1 : loop_state) :
  loop_body s = Break s1 ->
  current_year s1 = current_year s
  /\ count s1 = count s
  /\ time_array s1 = time_array s
  /\ 12 < month s1 /\ month s <= month s1
  /\ cumulative_days s <= cumulative_days s1.
Proof.
  unfold loop_body.
  destruct (roll_day _ _ _) as [e | [[cum' m'] d]] eqn:Hr; [discriminate |].
  apply roll_day_steps in Hr.
  destruct (Z.ltb_spec 12 m') as [Hgt | Hle]; [| discriminate].
  intros E. injection E as <-. cbn.
  repeat split; lia.
Qed.

(** X4.  From any state, when the loop ends it has kept
    [current_year], has only appended keys to [time_array], as many as
    [count] has advanced, and has lowered neither [month] nor
    [cumulative_days]; it ends by [break] only with a month above 12,
    and by its condition only if the condition was false from the start,
    with the state untouched. *)
Theorem loop_only_appends (year : Z) (fuel : nat) :
  forall (s s' : loop_state) (how : exit),
    while_loop year fuel s = Done how s' ->
    current_year s' = current_year s
    /\ (exists added,
           time_array s' = time_array s ++ added
           /\ count s' = count s + Z.of_nat (length added))
    /\ month s <= month s'
    /\ cumulative_days s <= cumulative_days s'
    /\ (how = ByBreak -> current_year s = year /\ 12 < month s')
    /\ (how = ByCondition -> s' = s /\ current_year s <> year).
Proof.
  induction fuel as [| fuel IH]; intros s s' how H; [discriminate H |].
  cbn [while_loop] in H.
  destruct (Z.eqb_spec (current_year s) year) as [Hy | Hy].
  - destruct (loop_body s) as [s1 | s1 | e] eqn:Hb; [| | discriminate H].
    + apply loop_body_next in Hb.
      destruct Hb as (Hy1 & Hc1 & (key & Hk1) & Hm1 & Hcu1).
      apply IH in H.
      destruct H as (Hy' & (added & Ha & Hc) & Hm & Hcu & Hbr & Hco).
      split; [congruence |].
      split.
      { exists (key :: added). rewrite Ha, Hk1, <- app_assoc. split; [reflexivity |].
        rewrite Hc, Hc1. cbn [length]. lia. }
      split; [lia |]. split; [lia |]. split.
      * intros E. split; [exact Hy | apply Hbr, E].
      * intros E. destruct (Hco E) as [_ Hne]. congruence.
    + injection H as <- <-. apply loop_body_break in Hb.
      destruct Hb as (Hy1 & Hc1 & Hk1 & Hm12 & Hm1 & Hcu1).
      split; [exact Hy1 |].
      split; [exists []; rewrite app_nil_r; split; [exact Hk1 | cbn; lia] |].
      split; [lia |]. split; [lia |]. split.
      * intros _. split; assumption.
      * discriminate.
  - injection H as <- <-.
    split; [reflexivity |].
    split; [exists []; rewrite app_nil_r; split; [reflexivity | cbn; lia] |].
    split; [lia |]. split; [lia |]. split; [discriminate |].
    intros _. split; [reflexivity | exact Hy].
Qed.

(** X4 for the run of the year 2017. *)
Lemma loop_only_appends_witness :
  exists added,
    time_array (at_break 2017) = time_array (init 2017) ++ added
    /\ count (at_break 2017) = count (init 2017) + Z.of_nat (length added).
Proof.
  refine (proj1 (proj2 (loop_only_appends 2017 366 (init 2017)
                          (at_break 2017) ByBreak _))).
  vm_compute. reflexivity.
Defined.

End LoopMore.

(** ** More on the normaliser *)

Module NormaliserMore.

Import Ephem Numpy Chart Program Notions ChartFacts.

Lemma normalize_cases (x ref : Q) :
  (ref < hours x /\ normalize x ref = Binary64.fsub (hours x) 24)
  \/ (hours x <= ref /\ normalize x ref = hours x).
Proof.
  unfold normalize, hours. cbv zeta.
  destruct (Qlt_le_dec ref _) as [H | H]; [left | right]; split;
    try exact H; reflexivity.
Qed.

(** The floor moves with a shift by whole days. *)
Lemma Qfloor_shift (x : Q) (n : Z) :
  Qfloor (x + inject_Z n) = (Qfloor x + n)%Z.
Proof.
  pose proof (Qfloor_le x) as Hlo.
  pose proof (Qlt_floor x) as Hhi.
  pose proof (Qfloor_le (x + inject_Z n)) as Hlo'.
  pose proof (Qlt_floor (x + inject_Z n)) as Hhi'.
  rewrite inject_Z_plus in Hhi, Hhi'.
  change (inject_Z 1) with 1 in Hhi, Hhi'.
  assert (H1 : inject_Z (Qfloor (x + inject_Z n)) < inject_Z (Qfloor x + n + 1)).
  { rewrite !inject_Z_plus. change (inject_Z 1) with 1. lra. }
  assert (H2 : inject_Z (Qfloor x + n) < inject_Z (Qfloor (x + inject_Z n) + 1)).
  { rewrite !inject_Z_plus. change (inject_Z 1) with 1. lra. }
  rewrite <- Zlt_Qlt in H1, H2. lia.
Qed.

Lemma hours_shift (x : Q) (n : Z) : hours (x + inject_Z n) == hours x.
Proof.
  unfold hours, Binary64.fmul, Binary64.fsub.
  rewrite Qfloor_shift, inject_Z_plus.
  assert (E : x + inject_Z n - (inject_Z (Qfloor x) + inject_Z n)
              == x - inject_Z (Qfloor x)) by ring.
  rewrite E. reflexivity.
Qed.

Lemma normalize_shift (x ref : Q) (n : Z) :
  normalize (x + inject_Z n) ref == normalize x ref.
Proof.
  pose proof (hours_shift x n) as Hs.
  destruct (normalize_cases (x + inject_Z n) ref) as [[H1 ->] | [H1 ->]];
    destruct (normalize_cases x ref) as [[H2 ->] | [H2 ->]];
    try (exfalso; lra).
  - unfold Binary64.fsub. rewrite Hs. reflexivity.
  - exact Hs.
Qed.

Lemma rise_value lib planet d ref w x :
  next_rising lib (with_date (site w) d) planet = inr x ->
  fst (get_body_rise lib planet d ref w) = Some (normalize x ref).
Proof.
  intros H. rewrite get_body_rise_event, get_body_event_run. cbn [fst].
  unfold sample. cbn [answer]. rewrite H. reflexivity.
Qed.

Lemma set_value lib planet d ref w x :
  next_setting lib (with_date (site w) d) planet = inr x ->
  fst (get_body_set lib planet d ref w) = Some (normalize x ref).
Proof.
  intros H. rewrite get_body_set_event, get_body_event_run. cbn [fst].
  unfold sample. cbn [answer]. rewrite H. reflexivity.
Qed.

(** X6.  Whatever the reference, a value returned by the rise or the
    set query lies, in binary64, in [-24, 24], and it is at most the
    reference unless it is at most 0. *)
Theorem normaliser_range_any_reference lib planet d ref w x :
  (next_rising lib (with_date (site w) d) planet = inr x ->
   exists v, fst (get_body_rise lib planet d ref w) = Some v
             /\ -24 <= v /\ v <= 24 /\ (v <= ref \/ v <= 0))
  /\ (next_setting lib (with_date (site w) d) planet = inr x ->
      exists v, fst (get_body_set lib planet d ref w) = Some v
                /\ -24 <= v /\ v <= 24 /\ (v <= ref \/ v <= 0)).
Proof.
  split; intros H; [rewrite (rise_value _ _ _ ref _ _ H)
                   | rewrite (set_value _ _ _ ref _ _ H)];
    eexists; (split; [reflexivity |]); apply normalize_range.
Qed.

(** X6 at the reference -5 and the day fraction 7/8. *)
Lemma normaliser_range_any_reference_witness :
  exists v, fst (get_body_rise (constant_library (7 # 8)) Sun "2017/1/01" (-5)
                               (start 0 0)) = Some v
            /\ -24 <= v /\ v <= 24 /\ (v <= -5 \/ v <= 0).
Proof.
  apply (proj1 (normaliser_range_any_reference (constant_library (7 # 8)) Sun
                  "2017/1/01" (-5) (start 0 0) (7 # 8))).
  reflexivity.
Defined.

(** X8.  The value of a rise or set query depends on the time of day
    of the answer only: two answers a whole number of days apart give
    the same value. *)
Theorem sample_ignores_the_date lib planet d1 d2 ref w x n :
  (next_rising lib (with_date (site w) d1) planet = inr x ->
   next_rising lib (with_date (site w) d2) planet = inr (x + inject_Z n) ->
   same_sample (fst (get_body_rise lib planet d1 ref w))
               (fst (get_body_rise lib planet d2 ref w)))
  /\ (next_setting lib (with_date (site w) d1) planet = inr x ->
      next_setting lib (with_date (site w) d2) planet = inr (x + inject_Z n) ->
      same_sample (fst (get_body_set lib planet d1 ref w))
                  (fst (get_body_set lib planet d2 ref w))).
Proof.
  split; intros H1 H2;
    [rewrite (rise_value _ _ _ ref _ _ H1), (rise_value _ _ _ ref _ _ H2)
    | rewrite (set_value _ _ _ ref _ _ H1), (set_value _ _ _ ref _ _ H2)];
    cbn [same_sample]; symmetry; apply normalize_shift.
Qed.


(** X8 for a library that answers one day later on the second day. *)
Lemma sample_ignores_the_date_witness :
  same_sample
    (fst (get_body_rise (two_day_library (7 # 8)) Sun "2017/1/01" 17 (start 0 0)))
    (fst (get_body_rise (two_day_library (7 # 8)) Sun "2017/1/02" 17 (start 0 0))).
Proof.
  refine (proj1 (sample_ignores_the_date (two_day_library (7 # 8)) Sun
                   "2017/1/01" "2017/1/02" 17 (start 0 0) (7 # 8) 1) _ _).
  - reflexivity.
  - reflexivity.
Defined.

End NormaliserMore.

(** ** More on the series builder and the queries *)

Module SeriesMore.

Import Ephem Numpy Chart Program Notions ChartFacts.

Lemma last_cons {A : Type} (l : list A) :
  forall a d : A, last (a :: l) d = last l a.
Proof.
  induction l as [| b l IH]; intros a d; [reflexivity |].
  change (last (a :: b :: l) d) with (last (b :: l) d).
  rewrite (IH b d), (IH b a). reflexivity.
Qed.

(** Setting the date day after day leaves the observer on the last
    day, and everything else as it was. *)
Lemma fold_dates_fields (times : list string) :
  forall o,
    pressure (fold_left with_date times o) = pressure o
    /\ horizon (fold_left with_date times o) = horizon o
    /\ lat (fold_left with_date times o) = lat o
    /\ lon (fold_left with_date times o) = lon o
    /\ date (fold_left with_date times o) = last (map OnDay times) (date o).
Proof.
  induction times as [| t rest IH]; intros o; [repeat split |].
  cbn [fold_left]. destruct (IH (with_date o t)) as (Hp & Hh & Hla & Hlo & Hd).
  rewrite Hp, Hh, Hla, Hlo, Hd. repeat split.
  cbn [map]. rewrite last_cons. reflexivity.
Qed.

Lemma with_date_ext (a b : Observer) (d : string) :
  pressure a = pressure b -> horizon a = horizon b ->
  lat a = lat b -> lon a = lon b ->
  with_date a d = with_date b d.
Proof.
  destruct a, b. cbn. intros -> -> -> ->. reflexivity.
Qed.

Lemma with_date_fold (times : list string) (o : Observer) (d : string) :
  with_date (fold_left with_date times o) d = with_date o d.
Proof.
  destruct (fold_dates_fields times o) as (Hp & Hh & Hla & Hlo & _).
  apply with_date_ext; assumption.
Qed.

(** Two observers at the same place with the same settings, whatever
    their dates. *)
Lemma same_place_fold (times : list string) (o x : Observer) (d : string) :
  (forall t, with_date x t = with_date o t) ->
  with_date (fold_left with_date times x) d = with_date o d.
Proof. intros H. rewrite with_date_fold. apply H. Qed.

Lemma same_place_horizon (o x : Observer) (h d : string) :
  (forall t, with_date x t = with_date o t) ->
  with_date (with_horizon x h) d = with_date (with_horizon o h) d.
Proof.
  intros H. specialize (H d). destruct o, x. unfold with_date in *.
  cbn in *. injection H as -> _ -> ->. reflexivity.
Qed.

(** One pass over the days, from an observer that is [o] up to its
    date: the arrays and the queries are those for [o]. *)
Lemma pass_from (lib : library) (body : Body) (times : list string) (td : Z)
      (o : Observer) (w : world) :
  (forall t, with_date (site w) t = with_date o t) ->
  get_planet_times lib body times td w
  = (fst (get_planet_times lib body times td {| site := o; asked := [] |}),
     {| site := fold_left with_date times (site w);
        asked := asked w ++ queries_for o body times |}).
Proof.
  intros H. rewrite !get_planet_times_run. cbn [fst site asked].
  f_equal.
  - f_equal; f_equal; apply map_ext; intros t; unfold sample; rewrite H;
      reflexivity.
  - f_equal. f_equal. unfold queries_for. apply flat_map_ext. intros t.
    rewrite H. reflexivity.
Qed.

Lemma bind_pass {A : Type} (lib : library) (body : Body) (times : list string)
      (td : Z) (o : Observer) (k : masked_array * masked_array -> M A)
      (w : world) :
  (forall t, with_date (site w) t = with_date o t) ->
  bind (get_planet_times lib body times td) k w
  = k (fst (get_planet_times lib body times td {| site := o; asked := [] |}))
      {| site := fold_left with_date times (site w);
         asked := asked w ++ queries_for o body times |}.
Proof. intros H. unfold bind. rewrite (pass_from lib body times td o w H). reflexivity. Qed.

Lemma last_idem {A : Type} (l : list A) (d : A) : last l (last l d) = last l d.
Proof.
  destruct l as [| a l]; [reflexivity |]. rewrite !last_cons. reflexivity.
Qed.

(** X9.  [get_planet_times] changes nothing of the observer but its
    date, which it leaves on the last day of the sequence (and as it was
    for an empty sequence); it makes two queries per day, the rising
    then the setting, each with the observer on that day. *)
Theorem get_planet_times_moves_only_the_date lib body times td w :
  let w' := snd (get_planet_times lib body times td w) in
  pressure (site w') = pressure (site w)
  /\ horizon (site w') = horizon (site w)
  /\ lat (site w') = lat (site w)
  /\ lon (site w') = lon (site w)
  /\ date (site w') = last (map OnDay times) (date (site w))
  /\ asked w' = asked w ++ queries_for (site w) body times
  /\ length (asked w') = (length (asked w) + 2 * length times)%nat.
Proof.
  cbv zeta. rewrite get_planet_times_run. cbn [snd site asked].
  destruct (fold_dates_fields times (site w)) as (Hp & Hh & Hla & Hlo & Hd).
  repeat (split; [assumption |]).
  split; [reflexivity |].
  rewrite length_app, ProgramFacts.queries_for_length. reflexivity.
Qed.

(** Lines 145-156, pass by pass. *)
Lemma rise_and_set_arrays_run lib times td w :
  let alone b := fst (get_planet_times lib b times td
                        {| site := site w; asked := [] |}) in
  let dusk := with_horizon (site w) "-18" in
  fst (rise_and_set_arrays lib times td w)
  = {| sun_times := alone Sun; mercury_times := alone Mercury;
       venus_times := alone Venus; mars_times := alone Mars;
       jupiter_times := alone Jupiter; saturn_times := alone Saturn;
       uranus_times := alone Uranus; neptune_times := alone Neptune;
       sun_twilight_times :=
         fst (get_planet_times lib Sun times td
                {| site := dusk; asked := [] |}) |}
  /\ asked (snd (rise_and_set_arrays lib times td w))
     = asked w
       ++ (queries_for (site w) Sun times
           ++ queries_for (site w) Mercury times
           ++ queries_for (site w) Venus times
           ++ queries_for (site w) Mars times
           ++ queries_for (site w) Jupiter times
           ++ queries_for (site w) Saturn times
           ++ queries_for (site w) Uranus times
           ++ queries_for (site w) Neptune times)
       ++ queries_for dusk Sun times
  /\ forall t, with_date (site (snd (rise_and_set_arrays lib times td w))) t
               = with_date dusk t.
Proof.
  cbv zeta.
  destruct (rise_and_set_arrays lib times td w) as [a w'] eqn:E.
  unfold rise_and_set_arrays in E.
  do 8 (rewrite (bind_pass lib _ times td (site w)) in E
         by (cbn [site]; intros t;
             repeat (apply same_place_fold; intros ?); reflexivity)).
  unfold bind at 1 in E. cbn [set_horizon site asked] in E.
  rewrite (bind_pass lib _ times td (with_horizon (site w) "-18")) in E
    by (cbn [site]; intros t; apply same_place_horizon; intros ?;
        repeat (apply same_place_fold; intros ?); reflexivity).
  unfold ret in E. injection E as <- <-. cbn [fst snd site asked].
  split; [reflexivity |]. split.
  - rewrite <- !app_assoc. reflexivity.
  - intros t. apply same_place_fold. intros ?. apply same_place_horizon.
    intros ?. repeat (apply same_place_fold; intros ?). reflexivity.
Qed.

Lemma same_place_fields (o x : Observer) :
  (forall t, with_date x t = with_date o t) ->
  pressure x = pressure o /\ horizon x = horizon o
  /\ lat x = lat o /\ lon x = lon o.
Proof.
  intros H. specialize (H EmptyString). unfold with_date in H.
  injection H as Hp Hh Hla Hlo. repeat split; assumption.
Qed.

(** X10.  In lines 145-156 the arrays of each body are those of a pass
    run alone from the starting state, and the twilight arrays those of a
    pass for the Sun run alone with the horizon at -18: no pass depends
    on the date the pass before left behind.  The queries are those of
    the nine passes in order, and the observer ends with horizon -18 and
    the position and pressure it started with. *)
Theorem passes_do_not_interfere lib times td w :
  let run := rise_and_set_arrays lib times td w in
  let alone b := fst (get_planet_times lib b times td w) in
  (sun_times (fst run) = alone Sun
   /\ mercury_times (fst run) = alone Mercury
   /\ venus_times (fst run) = alone Venus
   /\ mars_times (fst run) = alone Mars
   /\ jupiter_times (fst run) = alone Jupiter
   /\ saturn_times (fst run) = alone Saturn
   /\ uranus_times (fst run) = alone Uranus
   /\ neptune_times (fst run) = alone Neptune
   /\ sun_twilight_times (fst run)
      = fst (get_planet_times lib Sun times td (snd (set_horizon "-18" w))))
  /\ asked (snd run)
     = asked w
       ++ (queries_for (site w) Sun times
           ++ queries_for (site w) Mercury times
           ++ queries_for (site w) Venus times
           ++ queries_for (site w) Mars times
           ++ queries_for (site w) Jupiter times
           ++ queries_for (site w) Saturn times
           ++ queries_for (site w) Uranus times
           ++ queries_for (site w) Neptune times)
       ++ queries_for (with_horizon (site w) "-18") Sun times
  /\ (pressure (site (snd run)) = pressure (site w)
      /\ horizon (site (snd run)) = "-18"%string
      /\ lat (site (snd run)) = lat (site w)
      /\ lon (site (snd run)) = lon (site w)).
Proof.
  cbv zeta.
  destruct (rise_and_set_arrays_run lib times td w) as (Ha & Hl & Hs).
  rewrite Ha, Hl. cbn [sun_times mercury_times venus_times mars_times
                       jupiter_times saturn_times uranus_times neptune_times
                       sun_twilight_times].
  split.
  - repeat split;
      match goal with
      | |- _ = fst (get_planet_times _ ?b _ _ ?w0) =>
          rewrite (pass_from lib b times td (site w0) w0) by reflexivity;
          reflexivity
      end.
  - split; [reflexivity |].
    apply same_place_fields in Hs. exact Hs.
Qed.

Lemma queries_asked_from (o o' : Observer) (h : string) (body : Body)
      (keys : list string) :
  (forall t, with_date o' t = with_date (with_horizon o h) t) ->
  Forall (asked_from o h keys) (queries_for o' body keys).
Proof.
  intros H. apply Forall_forall. intros q Hq.
  unfold queries_for in Hq. apply in_flat_map in Hq.
  destruct Hq as (t & Ht & Hq). exists t. split; [exact Ht |].
  destruct Hq as [<- | [<- | []]]; cbn [q_obs]; apply H.
Qed.

Lemma firstn_exact {A : Type} (a b : list A) (n : nat) :
  length a = n -> firstn n (a ++ b) = a /\ skipn n (a ++ b) = b.
Proof.
  intros <-. split.
  - rewrite firstn_app, Nat.sub_diag, firstn_all. cbn [firstn].
    apply app_nil_r.
  - rewrite skipn_app, Nat.sub_diag, skipn_all. reflexivity.
Qed.

(** X11.  With a configuration within bounds, every query the program
    makes has the observer at the configured site on the day of one of
    the date keys, never at the time of its construction; the first
    16 * 365 queries are made with horizon 0, the last 2 * 365 with
    horizon -18, which is the horizon the observer is left with. *)
Theorem queries_of_the_program lib fuel cfg :
  ~ out_of_bounds cfg ->
  exists out log,
    main lib (366 + fuel) cfg = Some (inr out, log)
    /\ let o := observing_site (latitude cfg)
                  (fix_longitude (longitude cfg)) in
       Forall (asked_from o "0" (used_times out)) (firstn (16 * 365) log)
       /\ Forall (asked_from o "-18" (used_times out)) (skipn (16 * 365) log)
       /\ length (skipn (16 * 365) log) = (2 * 365)%nat
       /\ horizon (final_site out) = "-18"%string.
Proof.
  intros Hcfg. do 2 eexists. split; [apply ProgramFacts.main_in_bounds, Hcfg |].
  cbv zeta. cbn [used_times final_site].
  set (o := observing_site _ _).
  set (keys := map (Calendar.key_of (year cfg)) Calendar.calendar).
  assert (Hk : length keys = 365%nat)
    by (subst keys; rewrite length_map; exact CalendarFacts.calendar_length).
  destruct (rise_and_set_arrays_run lib keys
              (time_diff (fix_longitude (longitude cfg)))
              (start (latitude cfg) (fix_longitude (longitude cfg))))
    as (_ & Hl & Hs).
  unfold start in *. cbn [site asked app] in Hl, Hs. fold o in Hl, Hs |- *.
  rewrite Hl.
  match goal with
  | |- Forall _ (firstn _ (?a ++ ?b)) /\ _ =>
      destruct (firstn_exact a b (16 * 365)) as [Hf Hsk]
  end.
  { rewrite !length_app, !ProgramFacts.queries_for_length, Hk. reflexivity. }
  rewrite Hf, Hsk.
  split; [| split; [| split]].
  - repeat match goal with
           | |- Forall _ (queries_for _ _ _ ++ _) => apply Forall_app; split
           end;
      apply queries_asked_from; intros t; reflexivity.
  - apply queries_asked_from. intros t. reflexivity.
  - rewrite ProgramFacts.queries_for_length, Hk. reflexivity.
  - apply same_place_fields in Hs. apply Hs.
Qed.

(** X11 for the default settings. *)
Lemma queries_of_the_program_witness :
  exists out log,
    main failing_library 366 default_config = Some (inr out, log)
    /\ length (skipn (16 * 365) log) = (2 * 365)%nat
    /\ horizon (final_site out) = "-18"%string.
Proof.
  destruct (queries_of_the_program failing_library 0 default_config)
    as (out & log & Hm & _ & _ & Hl & Hh).
  - unfold out_of_bounds.
    intros [H | [H | [H | H]]]; vm_compute in H; discriminate H.
  - exists out, log. repeat split; assumption.
Defined.

(** X12.  A day for which the library raises is a [None] entry of the
    series and is masked. *)
Theorem no_event_day_is_masked lib body times td w i day e :
  nth_error times i = Some day ->
  let res := fst (get_planet_times lib body times td w) in
  (next_rising lib (with_date (site w) day) body = inl e ->
   nth_error (data (fst res)) i = Some None
   /\ nth_error (mask (fst res)) i = Some true)
  /\ (next_setting lib (with_date (site w) day) body = inl e ->
      nth_error (data (snd res)) i = Some None
      /\ nth_error (mask (snd res)) i = Some true).
Proof.
  intros Hday. cbv zeta. rewrite get_planet_times_run. cbn [fst snd].
  unfold masked_outside. cbn [data mask].
  split; intros H; rewrite !nth_error_map, Hday; cbn [option_map];
    unfold sample; cbn [answer]; rewrite H; split; reflexivity.
Qed.

(** X12 for a library that always raises. *)
Lemma no_event_day_is_masked_witness :
  let res := fst (get_planet_times failing_library Venus
                    ["2017/1/01"%string; "2017/1/02"%string] (-5) (start 0 0)) in
  nth_error (data (fst res)) 1 = Some None
  /\ nth_error (mask (fst res)) 1 = Some true.
Proof.
  refine (proj1 (no_event_day_is_masked failing_library Venus
                   ["2017/1/01"%string; "2017/1/02"%string] (-5) (start 0 0)
                   1 "2017/1/02" (Py.EphemError "NeverUpError") _) _).
  - reflexivity.
  - reflexivity.
Defined.

End SeriesMore.

(** ** More on the offset and the axes *)

Module OffsetMore.

Import Ephem Numpy Chart Program Notions Axes ChartFacts.

Lemma trunc_opp (x : Q) : Py.int (- x) = (- Py.int x)%Z.
Proof.
  destruct x as [n d]. unfold Py.int. cbn [Qopp Qnum Qden].
  apply Z.quot_opp_l. discriminate.
Qed.

Lemma fifteenth (lon : Q) : lon == lon / 15 * 15.
Proof. field. Qed.

(** The exact quotient truncated toward zero lies within the hour. *)
Lemma trunc_east (lon : Q) :
  0 <= lon ->
  (0 <= Py.int (lon / 15))%Z
  /\ inject_Z (15 * Py.int (lon / 15)) <= lon
  /\ lon < inject_Z (15 * Py.int (lon / 15) + 15).
Proof.
  intros H. pose proof (fifteenth lon) as H15.
  assert (Hq : 0 <= lon / 15) by lra.
  rewrite (ProgramFacts.int_nonneg _ Hq).
  pose proof (Qfloor_le (lon / 15)) as Hlo.
  pose proof (Qlt_floor (lon / 15)) as Hhi.
  pose proof (Qfloor_resp_le _ _ Hq) as H0.
  change (Qfloor 0) with 0%Z in H0.
  rewrite !inject_Z_plus, !inject_Z_mult in *.
  change (inject_Z 15) with 15. change (inject_Z 1) with 1 in Hhi.
  repeat split; [exact H0 | lra | lra].
Qed.

Lemma trunc_west (lon : Q) :
  lon <= 0 ->
  (Py.int (lon / 15) <= 0)%Z
  /\ inject_Z (15 * Py.int (lon / 15) - 15) < lon
  /\ lon <= inject_Z (15 * Py.int (lon / 15)).
Proof.
  intros H. pose proof (fifteenth lon) as H15.
  assert (Hq : lon / 15 <= 0) by lra.
  rewrite (ProgramFacts.int_nonpos _ Hq).
  pose proof (Qle_ceiling (lon / 15)) as Hhi.
  pose proof (Qceiling_lt (lon / 15)) as Hlo.
  pose proof (Qceiling_resp_le _ _ Hq) as H0.
  change (Qceiling 0) with 0%Z in H0.
  unfold Z.sub in *.
  rewrite !inject_Z_plus, ?inject_Z_mult, ?inject_Z_opp in *.
  change (inject_Z 15) with 15. change (inject_Z 1) with 1 in Hlo.
  repeat split; [exact H0 | lra | lra].
Qed.

(** For a float the program accepts, line 103 is the exact quotient
    truncated toward zero. *)
Lemma time_diff_exact (q : Q) :
  Binary64.representable q -> -180 <= q -> q <= 180 ->
  time_diff (Py.Float q) = Py.int (q / 15).
Proof.
  intros Hr Hlo Hhi. cbn [time_diff].
  pose proof (fifteenth q) as H15.
  destruct (Qlt_le_dec q 0) as [H | H].
  - rewrite ProgramFacts.float_quotient_west by (assumption || lra).
    symmetry. apply ProgramFacts.int_nonpos. lra.
  - rewrite ProgramFacts.float_quotient_east by (assumption || lra).
    symmetry. apply ProgramFacts.int_nonneg. lra.
Qed.

Lemma time_diff_opp (q : Q) :
  time_diff (Py.Float (- q)) = (- time_diff (Py.Float q))%Z.
Proof.
  cbn [time_diff]. unfold Binary64.fdiv. rewrite <- trunc_opp.
  apply ProgramFacts.int_comp.
  rewrite <- Binary64Facts.round64_opp.
  assert (E : - q / 15 == - (q / 15)) by field.
  rewrite E. reflexivity.
Qed.

Lemma int_offset_bounds (n : Z) :
  (15 * time_diff (Py.Int n) <= n < 15 * time_diff (Py.Int n) + 15)%Z.
Proof.
  cbn [time_diff].
  pose proof (Z.div_mod n 15 ltac:(lia)) as Hd.
  pose proof (Z.mod_pos_bound n 15 ltac:(lia)) as Hm. lia.
Qed.

(** X13.  For a float longitude the offset of line 103 changes sign
    with the longitude; for a float from 0 to 180 it is not negative,
    and fifteen times the offset is at most the longitude and less than
    fifteen degrees below it; for a float from -180 to 0 the same holds
    mirrored.  For an int longitude the offset is the floor: fifteen
    times the offset is at most the longitude and less than fifteen
    below it, whatever the sign. *)
Theorem offset_is_within_the_hour :
  (forall q : Q, time_diff (Py.Float (- q)) = (- time_diff (Py.Float q))%Z)
  /\ (forall q : Q,
         Binary64.representable q -> 0 <= q -> q <= 180 ->
         (0 <= time_diff (Py.Float q))%Z
         /\ inject_Z (15 * time_diff (Py.Float q)) <= q
         /\ q < inject_Z (15 * time_diff (Py.Float q) + 15))
  /\ (forall q : Q,
         Binary64.representable q -> -180 <= q -> q <= 0 ->
         (time_diff (Py.Float q) <= 0)%Z
         /\ inject_Z (15 * time_diff (Py.Float q) - 15) < q
         /\ q <= inject_Z (15 * time_diff (Py.Float q)))
  /\ (forall n : Z,
         (15 * time_diff (Py.Int n) <= n < 15 * time_diff (Py.Int n) + 15)%Z).
Proof.
  split; [apply time_diff_opp |].
  split; [| split; [| apply int_offset_bounds]].
  - intros q Hr H0 H180. rewrite time_diff_exact by (assumption || lra).
    apply trunc_east, H0.
  - intros q Hr Hlo H0. rewrite time_diff_exact by (assumption || lra).
    apply trunc_west, H0.
Qed.

(** X13 at the default longitude, at its opposite and at the ints 80
    and -80. *)
Lemma offset_is_within_the_hour_witness :
  (inject_Z (15 * time_diff (longitude default_config) - 15)
   < Py.value (longitude default_config))
  /\ (0 <= time_diff (Py.Float (- Py.value (longitude default_config))))%Z
  /\ time_diff (Py.Int 80) = 5%Z
  /\ time_diff (Py.Int (-80)) = (-6)%Z.
Proof.
  destruct offset_is_within_the_hour as (_ & Hpos & Hneg & Hint).
  split; [| split; [| split]].
  - apply (Hneg (Py.value (longitude default_config)));
      [vm_compute; reflexivity | discriminate | discriminate].
  - apply (Hpos (- Py.value (longitude default_config)));
      [vm_compute; reflexivity | discriminate | discriminate].
  - pose proof (Hint 80%Z) as H.
    assert (E : time_diff (Py.Int 80) = 5%Z) by reflexivity.
    exact E.
  - pose proof (Hint (-80)%Z) as H.
    assert (E : time_diff (Py.Int (-80)) = (-6)%Z) by reflexivity.
    exact E.
Defined.

(** For a float the test [-time_diff > 0] of line 190 holds exactly when
    the test [longitude > -15] of line 195 fails. *)
Lemma float_offset_negative (q : Q) :
  Binary64.representable q ->
  (0 <? - time_diff (Py.Float q))%Z = Qle_bool q (-15).
Proof.
  intros Hr. cbn [time_diff]. unfold Binary64.fdiv.
  pose proof (fifteenth q) as H15.
  destruct (Qlt_le_dec (-15) q) as [Hq | Hq].
  - assert (Eb : Qle_bool q (-15) = false).
    { destruct (Qle_bool q (-15)) eqn:E; [| reflexivity].
      apply Qle_bool_iff in E. lra. }
    rewrite Eb. apply Z.ltb_ge.
    destruct (Qlt_le_dec q 0) as [Hn | Hn].
    + pose proof (Binary64Facts.quotient_below 1 (- q) ltac:(lia)
                    (Binary64Facts.representable_opp q Hr)) as Hb.
      change (inject_Z (15 * 1)) with 15 in Hb. change (inject_Z 1) with 1 in Hb.
      assert (Hb' : Binary64.round64 (- q / 15) < 1) by (apply Hb; lra).
      assert (E : q / 15 == - (- q / 15)) by field.
      assert (Er : Binary64.round64 (q / 15) == - Binary64.round64 (- q / 15)).
      { rewrite E at 1. apply Binary64Facts.round64_opp. }
      assert (Rn : Binary64.round64 (q / 15) <= 0)
        by (apply Binary64Facts.round64_nonpos; lra).
      rewrite (ProgramFacts.int_nonpos _ Rn).
      pose proof (Qle_ceiling (Binary64.round64 (q / 15))) as Hc.
      assert (A : inject_Z (-1) < inject_Z (Qceiling (Binary64.round64 (q / 15))))
        by (change (inject_Z (-1)) with (-1); lra).
      rewrite <- Zlt_Qlt in A. lia.
    + assert (Rn : 0 <= Binary64.round64 (q / 15))
        by (apply Binary64Facts.round64_nonneg; lra).
      rewrite (ProgramFacts.int_nonneg _ Rn).
      pose proof (Qfloor_resp_le _ _ Rn) as Hf.
      change (Qfloor 0) with 0%Z in Hf. lia.
  - assert (Eb : Qle_bool q (-15) = true) by (apply Qle_bool_iff; exact Hq).
    rewrite Eb. apply Z.ltb_lt.
    assert (Rn : Binary64.round64 (q / 15) <= inject_Z (-1)).
    { apply Binary64Facts.round64_le_int; [lia |].
      change (inject_Z (-1)) with (-1). lra. }
    assert (Rn0 : Binary64.round64 (q / 15) <= 0)
      by (change (inject_Z (-1)) with (-1) in Rn; lra).
    rewrite (ProgramFacts.int_nonpos _ Rn0).
    pose proof (Qceiling_resp_le _ _ Rn) as Hc.
    rewrite Qceiling_Z in Hc. lia.
Qed.

(** For an int it holds exactly when the longitude is negative. *)
Lemma int_offset_negative (n : Z) :
  (0 <? - time_diff (Py.Int n))%Z = (n <? 0)%Z.
Proof.
  pose proof (int_offset_bounds n) as H.
  destruct (Z.ltb_spec 0 (- time_diff (Py.Int n)));
    destruct (Z.ltb_spec n 0); lia.
Qed.

(** X14.  For a float longitude the x axis ends up running from ten
    hours before local midnight on the left to ten hours after it on the
    right: the limits are set in descending order exactly when the axis
    is inverted afterwards.  For an int longitude that is so except from
    -14 to -1, where the limits are set in ascending order and the axis
    is inverted all the same, which leaves it descending. *)
Theorem x_axis_direction :
  (forall q : Q,
      Binary64.representable q ->
      x_limits q (time_diff (Py.Float q))
      = ((- time_diff (Py.Float q) - 10)%Z, (- time_diff (Py.Float q) + 10)%Z))
  /\ (forall n : Z,
         x_limits (inject_Z n) (time_diff (Py.Int n))
         = if ((-15 <? n) && (n <? 0))%Z
           then ((- time_diff (Py.Int n) + 10)%Z, (- time_diff (Py.Int n) - 10)%Z)
           else ((- time_diff (Py.Int n) - 10)%Z, (- time_diff (Py.Int n) + 10)%Z)).
Proof.
  split.
  - intros q Hr. unfold x_limits. rewrite (float_offset_negative q Hr).
    destruct (Qle_bool q (-15)); reflexivity.
  - intros n. unfold x_limits. rewrite int_offset_negative.
    assert (E : Qle_bool (inject_Z n) (-15) = (n <=? -15)%Z).
    { destruct (Z.leb_spec n (-15)) as [H | H].
      - apply Qle_bool_iff. change (-15) with (inject_Z (-15)).
        rewrite <- Zle_Qle. exact H.
      - destruct (Qle_bool (inject_Z n) (-15)) eqn:Eb; [| reflexivity].
        apply Qle_bool_iff in Eb. change (-15) with (inject_Z (-15)) in Eb.
        rewrite <- Zle_Qle in Eb. lia. }
    rewrite E.
    destruct (Z.ltb_spec n 0); destruct (Z.leb_spec n (-15));
      destruct (Z.ltb_spec (-15) n); cbn [negb andb fst snd]; try reflexivity; lia.
Qed.

(** X14 at the float -10.5, where the axis runs from -10 to 10, and at
    the int -10, where it runs from 11 to -9. *)
Lemma x_axis_direction_witness :
  x_limits (- (21 # 2)) (time_diff (Py.Float (- (21 # 2)))) = ((-10)%Z, 10%Z)
  /\ x_limits (inject_Z (-10)) (time_diff (Py.Int (-10))) = (11%Z, (-9)%Z).
Proof.
  destruct x_axis_direction as [Hf Hi].
  split.
  - rewrite (Hf (- (21 # 2))) by (vm_compute; reflexivity). reflexivity.
  - rewrite (Hi (-10)%Z). reflexivity.
Defined.

Lemma in_bounds_cases (cfg : config) :
  ~ out_of_bounds cfg ->
  -180 <= Py.value (longitude cfg) /\ Py.value (longitude cfg) <= 180.
Proof.
  intros H. unfold out_of_bounds in H.
  split; apply Qnot_lt_le; intros Hc; apply H; tauto.
Qed.

(** A float in (-180, 180] has an offset from -11 to 12. *)
Lemma offset_range (q : Q) :
  Binary64.representable q -> -180 < q -> q <= 180 ->
  (-11 <= time_diff (Py.Float q) <= 12)%Z.
Proof.
  intros Hr Hlo Hhi. rewrite time_diff_exact by (assumption || lra).
  destruct (Qlt_le_dec q 0) as [H | H].
  - destruct (trunc_west q) as (H0 & Ha & Hb); [lra |].
    assert (Hz : inject_Z (-180) < inject_Z (15 * Py.int (q / 15)))
      by (change (inject_Z (-180)) with (-180); lra).
    rewrite <- Zlt_Qlt in Hz. lia.
  - destruct (trunc_east q H) as (H0 & Ha & Hb).
    assert (Hz : inject_Z (15 * Py.int (q / 15)) <= inject_Z 180)
      by (change (inject_Z 180) with 180; lra).
    rewrite <- Zle_Qle in Hz. lia.
Qed.

(** The offset of a configuration within bounds: from -11 to 12 for a
    float, from -12 to 12 for an int, -12 being that of the ints from
    -179 to -166. *)
Lemma offset_of_setting (lon : Py.number) :
  float_setting lon -> -180 <= Py.value lon -> Py.value lon <= 180 ->
  (-12 <= time_diff (fix_longitude lon) <= 12)%Z
  /\ (time_diff (fix_longitude lon) = (-12)%Z
      <-> exists n : Z, lon = Py.Int n /\ (-180 < n <= -166)%Z).
Proof.
  intros Hf Hlo Hhi.
  destruct (ProgramFacts.fix_longitude_cases lon) as [[He ->] | [Hne ->]].
  - change (time_diff (Py.Float 180)) with 12%Z.
    split; [lia |]. split; [discriminate |].
    intros (n & -> & Hn). cbn [Py.value] in He.
    unfold Qeq in He. cbn in He. lia.
  - destruct lon as [n | q]; cbn [Py.value float_setting] in *.
    + assert (Hn1 : (-180 <= n)%Z)
        by (rewrite Zle_Qle; change (inject_Z (-180)) with (-180); exact Hlo).
      assert (Hn2 : (n <= 180)%Z)
        by (rewrite Zle_Qle; change (inject_Z 180) with 180; exact Hhi).
      assert (Hn3 : n <> (-180)%Z).
      { intros ->. apply Hne. reflexivity. }
      pose proof (int_offset_bounds n) as Hb.
      split; [lia |]. split.
      * intros E. exists n. split; [reflexivity | lia].
      * intros (m & Em & Hm). injection Em as <-. lia.
    + assert (Hq : -180 < q).
      { destruct (Qlt_le_dec (-180) q) as [H | H]; [exact H |].
        exfalso. apply Hne. apply Qle_antisym; assumption. }
      pose proof (offset_range q Hf Hq Hhi) as Hr.
      split; [lia |]. split; [lia |].
      intros (m & Em & _). discriminate Em.
Qed.

(** X15.  With a configuration within bounds the offset is from -12 to
    12, and it is -12 only for a longitude written as an int from -179
    to -166.  For every other offset the [mod 24] of line 46 changes
    nothing, so noon is midnight plus 12, and every value of a series
    lies within twelve hours of local midnight, both ends included. *)
Theorem noon_is_twelve_hours_after_midnight (cfg : config) :
  ~ out_of_bounds cfg -> float_setting (longitude cfg) ->
  let td := time_diff (fix_longitude (longitude cfg)) in
  (-12 <= td <= 12)%Z
  /\ (td = (-12)%Z
      <-> exists n : Z, longitude cfg = Py.Int n /\ (-180 < n <= -166)%Z)
  /\ ((-11 <= td)%Z ->
      ref_rise td = inject_Z (- td + 12)
      /\ forall lib body times w a i v,
          a = fst (fst (get_planet_times lib body times td w))
          \/ a = snd (fst (get_planet_times lib body times td w)) ->
          nth_error (data a) i = Some (Some v) ->
          inject_Z (- td - 12) <= v /\ v <= inject_Z (- td + 12)).
Proof.
  intros Hcfg Hfl. cbv zeta.
  destruct (in_bounds_cases cfg Hcfg) as [Hlo Hhi].
  destruct (offset_of_setting _ Hfl Hlo Hhi) as [Htd Hiff].
  set (td := time_diff (fix_longitude (longitude cfg))) in *.
  split; [exact Htd |]. split; [exact Hiff |].
  intros Htd'.
  assert (Hnoon : ref_rise td = inject_Z (- td + 12)).
  { unfold ref_rise. rewrite Z.mod_small by lia. reflexivity. }
  split; [exact Hnoon |].
  intros lib body times w a i v Ha Hv.
  rewrite get_planet_times_run in Ha. cbn [fst snd] in Ha.
  assert (Hs : exists x, v = normalize x (ref_rise td)).
  { destruct Ha as [-> | ->]; unfold masked_outside in Hv; cbn [data] in Hv;
      rewrite nth_error_map in Hv;
      destruct (nth_error times i) as [day |]; try discriminate Hv;
      cbn [option_map] in Hv; unfold sample in Hv;
      destruct (answer _ _ _ _) as [e | x]; try discriminate Hv;
      injection Hv as Hv; exists x; symmetry; exact Hv. }
  destruct Hs as (x & ->). rewrite Hnoon.
  destruct (normalize_bounds x (- td + 12)) as [Hle Hge]; [lia |].
  split; [| exact Hle].
  assert (E : inject_Z (- td - 12) == inject_Z (- td + 12) - 24).
  { unfold Z.sub. rewrite !inject_Z_plus, !inject_Z_opp.
    change (inject_Z 12) with 12. ring. }
  rewrite E. exact Hge.
Qed.

(** X15 for the default settings, and for the int -170, whose offset is
    -12. *)
Lemma noon_is_twelve_hours_after_midnight_witness :
  ref_rise (time_diff (fix_longitude (longitude default_config)))
  = inject_Z (- time_diff (fix_longitude (longitude default_config)) + 12)
  /\ time_diff (fix_longitude (Py.Int (-170))) = (-12)%Z.
Proof.
  split.
  - refine (proj1 (proj2 (proj2 (noon_is_twelve_hours_after_midnight
                                   default_config _ _)) _)).
    + unfold out_of_bounds.
      intros [H | [H | [H | H]]]; vm_compute in H; discriminate H.
    + vm_compute. reflexivity.
    + vm_compute. discriminate.
  - refine (proj2 (proj1 (proj2 (noon_is_twelve_hours_after_midnight
                                   {| latitude := 0; longitude := Py.Int (-170);
                                      year := 2017 |} _ _))) _).
    + unfold out_of_bounds.
      intros [H | [H | [H | H]]]; vm_compute in H; discriminate H.
    + exact I.
    + exists (-170)%Z. split; [reflexivity | lia].
Defined.

(** X16.  Line 103 gives -12 for a longitude of -180 and 12 for the 180
    that lines 93-94 put in its place; with the offset -12 noon wraps to
    0 and every entry of both series is masked. *)
Theorem unfixed_minus_180_masks_everything lib body times w a :
  a = fst (fst (get_planet_times lib body times (time_diff (-180)) w))
  \/ a = snd (fst (get_planet_times lib body times (time_diff (-180)) w)) ->
  time_diff (-180) = (-12)%Z
  /\ time_diff (fix_longitude (-180)) = 12%Z
  /\ length (mask a) = length times
  /\ Forall (fun m => m = true) (mask a).
Proof.
  intros Ha.
  split; [reflexivity |]. split; [reflexivity |].
  change (time_diff (-180)) with (-12)%Z in Ha.
  rewrite get_planet_times_run in Ha. cbn [fst snd] in Ha.
  assert (Hm : exists ev,
             mask a = map (fun e => lt e 2 || gt e 22)
                          (map (sample lib ev (site w) body 0) times)).
  { destruct Ha as [-> | ->]; [exists Rising | exists Setting]; reflexivity. }
  destruct Hm as (ev & ->).
  split; [rewrite !length_map; reflexivity |].
  apply Forall_forall. intros m Hm.
  apply in_map_iff in Hm. destruct Hm as (e & <- & He).
  apply in_map_iff in He. destruct He as (day & <- & _).
  unfold sample. destruct (answer _ _ _ _) as [err | x]; [reflexivity |].
  destruct (normalize_bounds x 0%Z) as [Hle _]; [lia |].
  change (inject_Z 0) with 0 in Hle.
  apply orb_true_iff. left. unfold lt. apply negb_true_iff.
  destruct (Qle_bool (inject_Z 2) _) eqn:E; [| reflexivity].
  apply Qle_bool_iff in E. change (inject_Z 2) with 2 in E. lra.
Qed.

(** X16 for a library that answers 9 hours. *)
Lemma unfixed_minus_180_masks_everything_witness :
  Forall (fun m => m = true)
    (mask (fst (fst (get_planet_times (constant_library (3 # 8)) Sun
                       ["2017/1/01"%string] (time_diff (-180)) (start 0 0))))).
Proof.
  apply (unfixed_minus_180_masks_everything (constant_library (3 # 8)) Sun
           ["2017/1/01"%string] (start 0 0)).
  left. reflexivity.
Defined.

End OffsetMore.
